(** * BudgetBuddy: token service, access gate, repository and assistant path

    A shallow embedding of [auth.py], [main.py] and [ai_assistant.py].
    Python values are an inductive type, dictionaries are insertion-ordered
    association lists, dictionaries that are passed by reference live in a
    store indexed by locations, exceptions are a result type, and the
    services the program talks to (the JOSE codec, the relational store,
    the HTTP client, the completion service) are records of parameters.
    The configuration is read from the environment once, when a module is
    loaded, and is taken as given; the key of the completion service may
    be missing from it.

    Time is counted in whole seconds since the epoch, the resolution of the
    [exp] claim of a token. *)

From Stdlib Require Import ZArith String List Bool Lia.
From stdpp Require Import base strings list gmap pretty.

Local Open Scope Z_scope.

(** ** Python values *)

Module Py.

(** The values that cross the program: parsed JSON, plus the [datetime]
    objects that [create_access_token] and [add_reminder] build.  A float
    is the 64 bits of its binary64 form; a [datetime] is its number of
    seconds since the epoch. *)
#[warnings="-register-all"]
Inductive Value : Type :=
| VNone
| VBool (b : bool)
| VInt (z : Z)
| VFloat (bits : Z)
| VStr (s : string)
| VDatetime (t : Z)
| VList (l : list Value)
| VDict (d : list (string * Value)).

(** A [dict] with string keys: insertion-ordered, one entry per key. *)
Abbreviation Dict := (list (string * Value)).

(** A [bytes] object. *)
Abbreviation bytes := (list Byte.byte).

(** [d.get(k)], with [None] of Python as [None]. *)
Fixpoint dict_get (k : string) (d : Dict) : option Value :=
  match d with
  | [] => None
  | (k', v) :: d' => if String.eqb k k' then Some v else dict_get k d'
  end.

(** [d.get(k)] as a Python value. *)
Definition get (k : string) (d : Dict) : Value :=
  match dict_get k d with Some v => v | None => VNone end.

(** [d[k] = v]: overwrite in place, or append a new entry. *)
Fixpoint dict_set (k : string) (v : Value) (d : Dict) : Dict :=
  match d with
  | [] => [(k, v)]
  | (k', v') :: d' =>
      if String.eqb k k' then (k', v) :: d' else (k', v') :: dict_set k v d'
  end.

(** [d.update(other)]. *)
Definition dict_update (d other : Dict) : Dict :=
  fold_left (fun acc kv => dict_set (fst kv) (snd kv) acc) other d.

(** Truth value of an object, as [not x] and [if x] test it; the floats
    that are false are the two zeros. *)
Definition truthy (v : Value) : bool :=
  match v with
  | VNone => false
  | VBool b => b
  | VInt z => negb (z =? 0)
  | VFloat bits => negb ((bits =? 0) || (bits =? 2 ^ 63))
  | VStr s => negb (String.eqb s "")
  | VDatetime _ => true
  | VList l => match l with [] => false | _ => true end
  | VDict d => match d with [] => false | _ => true end
  end.

(** Whether [json.dumps] accepts the value: no [datetime] inside. *)
Fixpoint json_serialisable (v : Value) : bool :=
  match v with
  | VDatetime _ => false
  | VList l => forallb json_serialisable l
  | VDict d => forallb (fun kv => json_serialisable (snd kv)) d
  | _ => true
  end.

(** The classes of exception the program meets. *)
Inductive ErrorClass : Type :=
| ValueError | UnicodeError | TypeError | AttributeError | IndexError
| KeyError | RequestException | JSONDecodeError
| JWSError | JWTError | ExpiredSignatureError | JWTClaimsError
| PrismaError | OpenAIError.

(** A raised exception: FastAPI's [HTTPException], or any other error
    with the text [str(e)] gives. *)
Inductive Exception : Type :=
| HTTPException (status_code : Z) (detail : string)
| PyError (cls : ErrorClass) (text : string).

Definition is_class (c : ErrorClass) (e : Exception) : bool :=
  match e with
  | PyError c' _ =>
      match c, c' with
      | ValueError, ValueError | ValueError, JSONDecodeError
      | ValueError, UnicodeError | UnicodeError, UnicodeError
      | TypeError, TypeError | AttributeError, AttributeError
      | IndexError, IndexError | KeyError, KeyError
      | RequestException, RequestException
      | RequestException, JSONDecodeError
      | JSONDecodeError, JSONDecodeError | JWSError, JWSError
      | JWTError, JWTError | JWTError, ExpiredSignatureError
      | JWTError, JWTClaimsError
      | ExpiredSignatureError, ExpiredSignatureError
      | JWTClaimsError, JWTClaimsError
      | PrismaError, PrismaError | OpenAIError, OpenAIError => true
      | _, _ => false
      end
  | HTTPException _ _ => false
  end.

(** [str(e)]. *)
Definition str_of_exn (e : Exception) : string :=
  match e with
  | HTTPException c d => pretty c +:+ ": " +:+ d
  | PyError _ t => t
  end.

(** The result of running a piece of code: a value, or a raised
    exception. *)
Inductive Outcome (A : Type) : Type :=
| Return (a : A)
| Raise (e : Exception).
Arguments Return {A} a.
Arguments Raise {A} e.

Definition bind {A B} (c : Outcome A) (k : A -> Outcome B) : Outcome B :=
  match c with
  | Return a => k a
  | Raise e => Raise e
  end.

(** [try: body / except: handler] (a bare [except] or [except Exception]). *)
Definition try_except {A} (body : Outcome A) (handler : Exception -> Outcome A)
  : Outcome A :=
  match body with
  | Return a => Return a
  | Raise e => handler e
  end.

(** [try: body / except cls: handler]: other classes propagate. *)
Definition try_except_class {A} (cls : ErrorClass) (body : Outcome A)
    (handler : Exception -> Outcome A) : Outcome A :=
  match body with
  | Return a => Return a
  | Raise e => if is_class cls e then handler e else Raise e
  end.

(** A variable that holds a dictionary or [None], as a value: [if not x]
    sees [None] and the empty dictionary alike. *)
Definition dict_or_none (x : option Dict) : Value :=
  match x with
  | None => VNone
  | Some d => VDict d
  end.

End Py.
Import Py.

Declare Scope outcome_scope.
Delimit Scope outcome_scope with outcome.
Notation "'let*' x ':=' c 'in' k" := (Py.bind c (fun x => k))
  (at level 10, x name, c at level 100, k at level 200) : outcome_scope.
Local Open Scope outcome_scope.

(** ** Stateful code

    Code that runs on a state (the object store, the database, the trace of
    effects), leaves a state and may raise.  A raised exception keeps the
    changes made before it. *)

Module St.

Definition ST (S A : Type) : Type := S -> Outcome A * S.

Definition ret {S A} (a : A) : ST S A := fun s => (Return a, s).
Definition raise {S A} (e : Exception) : ST S A := fun s => (Raise e, s).
Definition lift {S A} (c : Outcome A) : ST S A := fun s => (c, s).
Definition bind {S A B} (c : ST S A) (k : A -> ST S B) : ST S B :=
  fun s => match c s with
           | (Return a, s') => k a s'
           | (Raise e, s') => (Raise e, s')
           end.

(** [try: body / except Exception as e: handler e]. *)
Definition try_except {S A} (body : ST S A) (handler : Exception -> ST S A)
  : ST S A :=
  fun s => match body s with
           | (Return a, s') => (Return a, s')
           | (Raise e, s') => handler e s'
           end.

End St.

Declare Scope st_scope.
Delimit Scope st_scope with st.
Notation "'do' x '<-' c ';' k" := (St.bind c (fun x => k))
  (at level 10, x name, c at level 100, k at level 200) : st_scope.
Notation "c ';;' k" := (St.bind c (fun _ => k))
  (at level 100, k at level 200, right associativity) : st_scope.
Local Open Scope st_scope.

(** ** The object store

    Dictionaries are objects: a caller and a callee that hold the same
    reference see each other's updates.  The store maps locations to the
    current contents of each dictionary. *)

Module Store.

Abbreviation loc := positive.
Abbreviation heap := (gmap positive Dict).
Abbreviation ST := (St.ST (gmap positive Dict)).

(** Reading the dictionary behind a reference. *)
Definition read (l : loc) : ST Dict :=
  fun h => (Return (default [] (h !! l)), h).

(** A new dictionary object. *)
Definition alloc (d : Dict) : ST loc :=
  fun h => let l := fresh (dom h) in (Return l, <[l := d]> h).

(** [d.copy()]: a new object with the same entries. *)
Definition dict_copy (l : loc) : ST loc :=
  do d <- read l; alloc d.

(** [d.update(other)] on the object itself. *)
Definition update (l : loc) (other : Dict) : ST unit :=
  fun h => (Return tt, <[l := dict_update (default [] (h !! l)) other]> h).

(** [d[k] = v] on the object itself. *)
Definition setitem (l : loc) (k : string) (v : Value) : ST unit :=
  fun h => (Return tt, <[l := dict_set k v (default [] (h !! l))]> h).

(** [c] changes no object other than [l]. *)
Definition touches_only {A} (l : loc) (c : ST A) : Prop :=
  forall (h : gmap positive Dict) l', l' <> l -> (c h).2 !! l' = h !! l'.

(** Running a computation that builds its own objects. *)
Definition run {A} (c : ST A) : Outcome A := fst (c ∅).

End Store.

(** ** The JOSE library ([jose.jwt])

    The compact serialisation, the signature primitive and the validators
    of the registered claims other than [exp] belong to the library and are
    fields of [Library].  The control flow of [jwt.encode] and [jwt.decode]
    around them is written out. *)

Module Jose.

(** A token once its three segments are decoded. *)
Record JWS : Type := mkJWS {
  jws_alg : string;
  jws_payload : Value;
  jws_signature : string
}.

Record Library : Type := mkLibrary {
  (** Splitting and decoding the three segments; [None] when the string
      is not a well-formed token. *)
  jws_parse : string -> option JWS;
  (** The compact serialisation. *)
  jws_serialize : JWS -> string;
  (** The algorithms the library knows. *)
  alg_supported : string -> bool;
  (** Whether a key can be built from the secret for the algorithm. *)
  key_usable : string -> string -> bool;
  (** The signature of a payload under an algorithm and a secret. *)
  mac : string -> string -> Value -> string;
  (** [int(v)] on a float or on a string. *)
  int_of_text : Value -> Outcome Z;
  (** The validators of [iat], [nbf], [aud], [iss], [sub], [jti] and
      [at_hash]. *)
  validate_other_claims : Dict -> Z -> Outcome unit
}.

Section Library.

Context (lib : Library).

(** The parser reads back what the serialiser wrote for [j]. *)
Definition reads_back (j : JWS) : Prop :=
  jws_parse lib (jws_serialize lib j) = Some j.

(** [int(claims["exp"])]. *)
Definition int_of (v : Value) : Outcome Z :=
  match v with
  | VInt z => Return z
  | VBool b => Return (if b then 1 else 0)
  | VFloat _ | VStr _ => int_of_text lib v
  | _ => Raise (PyError TypeError "int() argument must be a string, a bytes-like object or a number")
  end.

(** [jwt.encode] first turns a [datetime] under a time claim into its
    integer timestamp, in the dictionary it was given. *)
Definition convert_time_claim (claims : Store.loc) (k : string) : Store.ST unit :=
  do d <- Store.read claims;
  match dict_get k d with
  | Some (VDatetime t) => Store.setitem claims k (VInt t)
  | _ => St.ret tt
  end.

Definition jwt_encode (claims : Store.loc) (key algorithm : string)
  : Store.ST string :=
  convert_time_claim claims "exp" ;;
  convert_time_claim claims "iat" ;;
  convert_time_claim claims "nbf" ;;
  do d <- Store.read claims;
  if negb (alg_supported lib algorithm) then
    St.raise (PyError JWSError "Algorithm not supported.")
  else if negb (json_serialisable (VDict d)) then
    St.raise (PyError TypeError "Object is not JSON serializable")
  else if negb (key_usable lib algorithm key) then
    St.raise (PyError JWSError "Unable to construct the signing key")
  else
    St.ret (jws_serialize lib
                 {| jws_alg := algorithm;
                    jws_payload := VDict d;
                    jws_signature := mac lib algorithm key (VDict d) |}).

Definition signature_verifies (j : JWS) (key : string) : bool :=
  key_usable lib (jws_alg j) key
  && String.eqb (jws_signature j) (mac lib (jws_alg j) key (jws_payload j)).

Definition validate_exp (claims : Dict) (now : Z) : Outcome unit :=
  match dict_get "exp" claims with
  | None => Return tt
  | Some v =>
      let* exp := int_of v in
      if exp <? now then
        Raise (PyError ExpiredSignatureError "Signature has expired.")
      else Return tt
  end.

Definition jwt_decode (token key : string) (algorithms : list string)
    (now : Z) : Outcome Dict :=
  match jws_parse lib token with
  | None => Raise (PyError JWTError "Not enough segments")
  | Some j =>
      if negb (existsb (String.eqb (jws_alg j)) algorithms) then
        Raise (PyError JWTError "The specified alg value is not allowed")
      else if negb (signature_verifies j key) then
        Raise (PyError JWTError "Signature verification failed.")
      else
        match jws_payload j with
        | VDict claims =>
            let* _ := validate_exp claims now in
            let* _ := validate_other_claims lib claims now in
            Return claims
        | _ => Raise (PyError JWTError "Invalid payload string: must be a json object")
        end
  end.

End Library.

End Jose.

(** ** [auth.py] *)

Module Auth.

(** The configuration read from the environment when the module is
    loaded. *)
Record Config : Type := mkConfig {
  JWT_SECRET : string;
  JWT_ALGORITHM : string;
  JWT_EXPIRE_MINUTES : Z
}.

(** The UTF-8 codec of [str] and [bytes], and the [bcrypt] package.  Each
    of the calls can raise: [encode] on a string that holds a lone
    surrogate ([UnicodeEncodeError]), [decode] on bytes that are not UTF-8,
    [hashpw] and [checkpw] on a password the installed version refuses
    (version 5 refuses more than 72 bytes with a [ValueError]), [checkpw]
    also on a stored text that is no hash. *)
Record Bcrypt : Type := mkBcrypt {
  (** [s.encode("utf-8")]. *)
  encode : string -> Outcome bytes;
  (** [b.decode("utf-8")]. *)
  decode : bytes -> Outcome string;
  (** [bcrypt.hashpw(password, salt)]. *)
  hashpw : bytes -> bytes -> Outcome bytes;
  (** [bcrypt.checkpw(password, hashed_password)]. *)
  checkpw : bytes -> bytes -> Outcome bool
}.

Section Auth.

Context (lib : Jose.Library) (cfg : Config) (bc : Bcrypt).

(** [salt] is what [bcrypt.gensalt()] drew.  A password that is not a
    string has no [encode]. *)
Definition hash_password (password : Value) (salt : bytes) : Outcome string :=
  match password with
  | VStr p =>
      let* password_bytes := encode bc p in
      let* hashed := hashpw bc password_bytes salt in
      decode bc hashed
  | _ => Raise (PyError AttributeError "object has no attribute 'encode'")
  end.

(** The arguments are evaluated from left to right, then [checkpw] is
    called; nothing here is under a [try]. *)
Definition verify_password (plain : Value) (hashed : string) : Outcome bool :=
  match plain with
  | VStr p =>
      let* plain_bytes := encode bc p in
      let* hashed_bytes := encode bc hashed in
      checkpw bc plain_bytes hashed_bytes
  | _ => Raise (PyError AttributeError "object has no attribute 'encode'")
  end.

(** [timedelta(minutes=m)] in seconds. *)
Definition timedelta_minutes (m : Z) : Z := 60 * m.

(** [now] is the reading of [datetime.utcnow()]. *)
Definition create_access_token (data : Store.loc) (now : Z)
  : Store.ST string :=
  do to_encode <- Store.dict_copy data;
  let expire := now + timedelta_minutes (JWT_EXPIRE_MINUTES cfg) in
  Store.update to_encode [("exp", VDatetime expire)] ;;
  Jose.jwt_encode lib to_encode (JWT_SECRET cfg) (JWT_ALGORITHM cfg).

(** [now] is the clock the library reads while it validates [exp]. *)
Definition decode_token (token : string) (now : Z) : Outcome (option Dict) :=
  try_except
    (let* payload :=
       Jose.jwt_decode lib token (JWT_SECRET cfg) [JWT_ALGORITHM cfg] now in
     Return (Some payload))
    (fun _ => Return None).

(** The algorithm is known and the secret fits it. *)
Definition config_usable : Prop :=
  Jose.alg_supported lib (JWT_ALGORITHM cfg) = true
  /\ Jose.key_usable lib (JWT_ALGORITHM cfg) (JWT_SECRET cfg) = true.

(** The moment a token issued at [now] expires. *)
Definition expiry (now : Z) : Z :=
  now + timedelta_minutes (JWT_EXPIRE_MINUTES cfg).

(** What [create_access_token] puts in a token for the claim [data]. *)
Definition issued_payload (data : Dict) (now : Z) : Dict :=
  dict_set "exp" (VInt (expiry now)) data.

Definition issued (data : Dict) (now : Z) : Jose.JWS :=
  {| Jose.jws_alg := JWT_ALGORITHM cfg;
     Jose.jws_payload := VDict (issued_payload data now);
     Jose.jws_signature :=
       Jose.mac lib (JWT_ALGORITHM cfg) (JWT_SECRET cfg)
         (VDict (issued_payload data now)) |}.

End Auth.

End Auth.

(** ** The relational store (the Prisma client)

    Modelled from the spec: the schema file is not among the sources.  A
    user row carries the columns [register] writes; an expense, savings-jar
    or reminder row carries its identifier, the identifier of its owner and
    the other columns as they were supplied.  Identifiers are integers the
    store assigns.  What the schema requires of a new row is the field
    [schema_check]. *)

Module Prisma.

Record User : Type := mkUser {
  id : Z;
  username : string;
  email : string;
  phoneNumber : Value;
  password : string
}.

Record Row : Type := mkRow {
  row_id : Z;
  userId : Z;
  columns : Dict
}.

(** The connected database; [engine_fault] is the message of the error
    every query raises while the engine is unreachable. *)
Record DB : Type := mkDB {
  engine_fault : option string;
  user : list User;
  expense : list Row;
  savingsjar : list Row;
  reminder : list Row
}.

Inductive Model : Type := Expense | SavingsJar | Reminder.

Record Schema : Type := mkSchema {
  (** [None] when the columns fit the model, else the message of the
      error the client raises. *)
  schema_check : Model -> Dict -> option string
}.

Definition table (m : Model) (db : DB) : list Row :=
  match m with
  | Expense => expense db
  | SavingsJar => savingsjar db
  | Reminder => reminder db
  end.

Definition set_table (m : Model) (rows : list Row) (db : DB) : DB :=
  match m with
  | Expense =>
      {| engine_fault := engine_fault db; user := user db; expense := rows;
         savingsjar := savingsjar db; reminder := reminder db |}
  | SavingsJar =>
      {| engine_fault := engine_fault db; user := user db;
         expense := expense db; savingsjar := rows; reminder := reminder db |}
  | Reminder =>
      {| engine_fault := engine_fault db; user := user db;
         expense := expense db; savingsjar := savingsjar db; reminder := rows |}
  end.

(** The next identifier of a table: one more than the largest in use. *)
Definition fresh_id (rows : list Row) : Z :=
  1 + fold_right (fun r acc => Z.max (row_id r) acc) 0 rows.

(** Every query goes through the engine. *)
Definition query {A} (result : A) : St.ST DB A :=
  fun db => match engine_fault db with
            | Some msg => (Raise (PyError PrismaError msg), db)
            | None => (Return result, db)
            end.

(** [db.user.find_unique(where={"id": v})]. *)
Definition user_find_unique_id (v : Value) : St.ST DB (option User) :=
  match v with
  | VInt i => fun db => query (find (fun u => id u =? i) (user db)) db
  | _ => St.raise (PyError PrismaError "Invalid value for the field id")
  end.

(** [db.user.find_unique(where={"username": v})]. *)
Definition user_find_unique_username (v : Value) : St.ST DB (option User) :=
  match v with
  | VStr n =>
      fun db => query (find (fun u => String.eqb (username u) n) (user db)) db
  | _ => St.raise (PyError PrismaError "Invalid value for the field username")
  end.

(** [db.<model>.find_many(where={"userId": uid})]. *)
Definition find_many (m : Model) (uid : Z) : St.ST DB (list Row) :=
  fun db => query (filter (fun r => userId r = uid) (table m db)) db.

(** [db.<model>.create(data=data)]: one new row, owned by the user that
    [data["userId"]] names, who must exist. *)
Definition create (schema : Schema) (m : Model) (data : Dict)
  : St.ST DB Row :=
  do _ <- query tt;
  match schema_check schema m data with
  | Some msg => St.raise (PyError PrismaError msg)
  | None =>
      match get "userId" data with
      | VInt uid =>
          fun db =>
            if existsb (fun u => id u =? uid) (user db) then
              let r := {| row_id := fresh_id (table m db); userId := uid;
                          columns := data |} in
              (Return r, set_table m (table m db ++ [r]) db)
            else
              (Raise (PyError PrismaError "Foreign key constraint failed"), db)
      | _ => St.raise (PyError PrismaError "Invalid value for the field userId")
      end
  end.

End Prisma.

(** ** [main.py] *)

Module Main.

Import Prisma.

(** The [datetime] functions [add_reminder] calls. *)
Record Datetime : Type := mkDatetime {
  (** [datetime.fromisoformat]; [None] when it raises [ValueError]. *)
  fromisoformat : string -> option Z;
  isoformat : Z -> string
}.

(** [v + s] for a string literal [s]. *)
Definition add_str (v : Value) (s : string) : Outcome string :=
  match v with
  | VStr a => Return (a +:+ s)
  | _ => Raise (PyError TypeError "unsupported operand type(s) for +")
  end.

Section Main.

Context (lib : Jose.Library) (cfg : Auth.Config) (bc : Auth.Bcrypt).
Context (schema : Schema) (dt : Datetime).

Abbreviation handler := (St.ST DB).

Definition get_current_user (token : string) (now : Z) : handler User :=
  do payload <- St.lift (Auth.decode_token lib cfg token now);
  if negb (truthy (dict_or_none payload)) then
    St.raise (HTTPException 401 "Invalid token")
  else
    do user <- user_find_unique_id (get "user_id" (default [] payload));
    match user with
    | None => St.raise (HTTPException 401 "User not found")
    | Some u => St.ret u
    end.


Definition login (body : Dict) (now : Z) : handler Dict :=
  let username := get "username" body in
  let password := get "password" body in
  if negb (truthy username) || negb (truthy password) then
    St.raise (HTTPException 400 "Username and password are required.")
  else
    do user <- user_find_unique_username username;
    do rejected <-
      match user with
      | None => St.ret true
      | Some u =>
          do ok <- St.lift (Auth.verify_password bc password
                              (Prisma.password u));
          St.ret (negb ok)
      end;
    if rejected then
      St.raise (HTTPException 401 "Invalid credentials")
    else
      match user with
      | Some u =>
          do token <- St.lift (Store.run
                        (do data <- Store.alloc [("user_id", VInt (id u))];
                         Auth.create_access_token lib cfg data now));
          St.ret [("access_token", VStr token); ("token_type", VStr "bearer")]
      | None =>
          (* not reached: a missing user is rejected above *)
          St.raise (PyError AttributeError "'NoneType' object has no attribute 'id'")
      end.

Definition add_expense (body : Dict) (current_user : User) : handler Dict :=
  let category := get "category" body in
  let amount := get "amount" body in
  let note := get "note" body in
  let recurring := get "recurring" body in
  let user_id := VInt (id current_user) in
  if negb (truthy user_id) then
    St.raise (HTTPException 400 "User ID not found in token.")
  else
    St.try_except
      (do expense <- create schema Expense
                       [("userId", user_id); ("category", category);
                        ("amount", amount); ("note", note);
                        ("recurring", recurring)];
       St.ret [("message", VStr "Expense added successfully");
               ("expense_id", VInt (row_id expense))])
      (fun e => St.raise (HTTPException 500 (str_of_exn e))).

Definition add_savings_jar (body : Dict) (current_user : User)
  : handler Dict :=
  let name := get "name" body in
  let goal := get "goal" body in
  let description := get "description" body in
  let progress := get "progress" body in
  St.try_except
    (do savings_jar <- create schema SavingsJar
                         [("userId", VInt (id current_user)); ("name", name);
                          ("goal", goal); ("description", description);
                          ("progress", progress)];
     St.ret [("message", VStr "Savings jar added successfully");
             ("savings_jar_id", VInt (row_id savings_jar))])
    (fun e => St.raise (HTTPException 500 (str_of_exn e))).

Definition add_reminder (body : Dict) (current_user : User) : handler Dict :=
  let name := get "name" body in
  let amount := get "amount" body in
  let due_date_str := get "due_date" body in
  do due_date <-
    St.lift
      (try_except_class ValueError
         (let* text := add_str due_date_str "T00:00:00" in
          match fromisoformat dt text with
          | Some d => Return d
          | None => Raise (PyError ValueError "Invalid isoformat string")
          end)
         (fun _ => Raise (HTTPException 400 "Invalid date format")));
  St.try_except
    (do reminder <- create schema Reminder
                      [("userId", VInt (id current_user)); ("name", name);
                       ("amount", amount); ("dueDate", VDatetime due_date)];
     St.ret [("message", VStr "Reminder added successfully");
             ("reminder_id", VInt (row_id reminder));
             ("due_date", VStr (isoformat dt due_date))])
    (fun e => St.raise (HTTPException 500 (str_of_exn e))).

Definition get_reminders (current_user : User) : handler (list Row) :=
  St.try_except (find_many Reminder (id current_user))
    (fun e => St.raise (HTTPException 500 (str_of_exn e))).

Definition get_expenses (current_user : User) : handler (list Row) :=
  St.try_except (find_many Expense (id current_user))
    (fun e => St.raise (HTTPException 500 (str_of_exn e))).

Definition get_savings_jars (current_user : User) : handler (list Row) :=
  St.try_except (find_many SavingsJar (id current_user))
    (fun e => St.raise (HTTPException 500 (str_of_exn e))).

(** A run of [add_expense] requests, each by the user the gate resolved
    for it; [None] as soon as one of them is not acknowledged. *)
Fixpoint add_expenses (requests : list (User * Dict)) (db : DB) : option DB :=
  match requests with
  | [] => Some db
  | (u, body) :: rest =>
      match add_expense body u db with
      | (Return _, db') => add_expenses rest db'
      | (Raise _, _) => None
      end
  end.

(** A route with [Depends(get_current_user)]: the gate runs first and
    hands the user it resolved to the handler. *)
Definition authenticated {A} (h : User -> handler A) (token : string)
    (now : Z) : handler A :=
  do current_user <- get_current_user token now;
  h current_user.

End Main.

End Main.

(** ** [ai_assistant.py] *)

Module Assistant.

(** What [requests.get] hands back: the status line and the body as
    [response.json()] reads it ([None] when the body is not JSON). *)
Record Response : Type := mkResponse {
  status_code : Z;
  json : option Value
}.

(** The client object: it holds the key it was built with. *)
Record Client : Type := mkClient {
  api_key : string
}.

(** One message of a chat request: its role and its content. *)
Definition Message : Type := (string * string)%type.

(** The world outside the process. *)
Record Services : Type := mkServices {
  (** [requests.get(url, headers=headers)]; raises on a connection
      fault. *)
  requests_get : string -> list (string * string) -> Outcome Response;
  (** Whether the constructor of the SDK's client takes a key that is
      set; releases differ on the empty key. *)
  api_key_accepted : string -> bool;
  (** [client.chat.completions.create(model=, messages=)] for the client
      built with the given key: [message.content] of each choice, which is
      a string or [None], or the fault the call raises. *)
  chat_completions_create :
    string -> string -> list Message -> Outcome (list (option string));
  (** [repr] of a string, of a float and of a [datetime]. *)
  repr_str : string -> string;
  repr_float : Z -> string;
  repr_datetime : Z -> string
}.

(** The effects of a run, in order. *)
Inductive Event : Type :=
| Requested (url : string) (headers : list (string * string))
| Printed (line : string)
| Submitted (model : string) (messages : list Message).

Definition BASE_URL : string := "http://localhost:8000".

Definition nl : string := String (Ascii.ascii_of_nat 10) EmptyString.

(** [text] occurs in [out]. *)
Definition echoes (text out : string) : Prop :=
  exists before after, out = before +:+ text +:+ after.

Definition is_submission (ev : Event) : Prop :=
  match ev with
  | Submitted _ _ => True
  | _ => False
  end.

Section Assistant.

Context (srv : Services).
(** What [os.getenv("OPENAI_API_KEY")] gave when the module was loaded:
    [None] when the variable is not set. *)
Context (OPENAI_API_KEY : option string).

Abbreviation io := (St.ST (list Event)).

(** [OpenAI(api_key=key)]: the constructor raises when it is given no
    key, or one it does not take. *)
Definition OpenAI (key : option string) : Outcome Client :=
  match key with
  | Some k =>
      if api_key_accepted srv k then Return {| api_key := k |}
      else Raise (PyError OpenAIError "The api_key client option must be set")
  | None => Raise (PyError OpenAIError "The api_key client option must be set")
  end.

(** [repr(v)]. *)
Fixpoint repr (v : Value) : string :=
  match v with
  | VNone => "None"
  | VBool b => if b then "True" else "False"
  | VInt z => pretty z
  | VFloat f => repr_float srv f
  | VStr s => repr_str srv s
  | VDatetime t => repr_datetime srv t
  | VList l => "[" +:+ String.concat ", " (map repr l) +:+ "]"
  | VDict d =>
      "{" +:+ String.concat ", "
                (map (fun kv : string * Value =>
                        let (k, x) := kv in
                        repr_str srv k +:+ ": " +:+ repr x) d)
          +:+ "}"
  end.

(** [str(v)], what an f-string puts in place of [{v}]. *)
Definition str (v : Value) : string :=
  match v with
  | VStr s => s
  | _ => repr v
  end.

Definition print (line : string) : io unit :=
  fun t => (Return tt, t ++ [Printed line]).

Definition get (url : string) (headers : list (string * string))
  : io Response :=
  fun t => (requests_get srv url headers, t ++ [Requested url headers]).

(** [response.raise_for_status()]. *)
Definition raise_for_status (r : Response) : Outcome unit :=
  if (400 <=? status_code r) && (status_code r <? 600) then
    Raise (PyError RequestException
             (pretty (status_code r) +:+ " Error"))
  else Return tt.

(** [response.json()]. *)
Definition response_json (r : Response) : Outcome Value :=
  match json r with
  | Some v => Return v
  | None => Raise (PyError JSONDecodeError "Expecting value")
  end.

(** What one fetch yields, its trace apart. *)
Definition fetched (path : string) (headers : list (string * string))
  : Outcome Value :=
  let* response := requests_get srv (BASE_URL +:+ path) headers in
  let* _ := raise_for_status response in
  response_json response.

(** The three lines of one fetch. *)
Definition fetch (path : string) (headers : list (string * string))
  : io Value :=
  do response <- get (BASE_URL +:+ path) headers;
  do _ <- St.lift (raise_for_status response);
  St.lift (response_json response).

Definition get_user_data (access_token : string) : io (option Dict) :=
  let headers := [("Authorization", "Bearer " +:+ access_token)] in
  St.try_except
    (do expenses <- fetch "/get_expenses" headers;
     do savings_jars <- fetch "/get_savings_jars" headers;
     do reminders <- fetch "/get_reminders" headers;
     let user_data := [("expenses", expenses);
                       ("savings_jars", savings_jars);
                       ("reminders", reminders)] in
     St.ret (Some user_data))
    (fun e =>
       if is_class RequestException e then
         print ("Error fetching user data: " +:+ str_of_exn e) ;;
         St.ret None
       else
         print ("An unexpected error occurred: " +:+ str_of_exn e) ;;
         St.ret None).

(** [d[k]]. *)
Definition getitem (d : Dict) (k : string) : Outcome Value :=
  match dict_get k d with
  | Some v => Return v
  | None => Raise (PyError KeyError k)
  end.

(** The context block, lines 80 to 84 of the source. *)
Definition build_context (user_data : Dict) : Outcome string :=
  let context := "User Information: " +:+ nl in
  let* expenses := getitem user_data "expenses" in
  let context := context +:+ "Expenses: " +:+ str expenses +:+ nl in
  let* savings_jars := getitem user_data "savings_jars" in
  let context := context +:+ "Savings Jars: " +:+ str savings_jars +:+ nl in
  let* reminders := getitem user_data "reminders" in
  let context := context +:+ "Reminders: " +:+ str reminders +:+ nl in
  let context :=
    context
    +:+ "Please use this information to respond to the user's query."
    +:+ nl in
  Return context.

(** [response.choices[0].message.content]: a string, or [None]. *)
Definition first_choice (choices : list (option string))
  : Outcome (option string) :=
  match choices with
  | c :: _ => Return c
  | [] => Raise (PyError IndexError "list index out of range")
  end.

(** [client.chat.completions.create(model=, messages=)]. *)
Definition create (client : Client) (model : string) (messages : list Message)
  : io (list (option string)) :=
  fun t => (chat_completions_create srv (api_key client) model messages,
            t ++ [Submitted model messages]).

(** What the function returns is a string or, when the first choice has
    no content, [None].  The client is built first, outside any [try]. *)
Definition generate_ai_response (user_prompt access_token : string)
  : io (option string) :=
  do client <- St.lift (OpenAI OPENAI_API_KEY);
  do user_data <- get_user_data access_token;
  if negb (truthy (dict_or_none user_data)) then
    St.ret (Some "Sorry, I couldn't retrieve your data.")
  else
    do context <- St.lift (build_context (default [] user_data));
    let full_prompt := context +:+ "User Query: " +:+ user_prompt in
    St.try_except
      (do response <-
         create client "gpt-4o"
           [("system", "You are a helpful personal finance assistant.");
            ("user", full_prompt)];
       St.lift (first_choice response))
      (fun e => St.ret (Some ("An error occurred: " +:+ str_of_exn e))).

Definition get_response (user_prompt access_token : string)
  : io (option string) :=
  generate_ai_response user_prompt access_token.

(** The headers every fetch of a run carries. *)
Definition bearer (access_token : string) : list (string * string) :=
  [("Authorization", "Bearer " +:+ access_token)].

(** The context block for the three collections: a title line, the three
    headed lines in order, then the instruction line. *)
Definition context_block (expenses savings_jars reminders : Value) : string :=
  "User Information: " +:+ nl
  +:+ "Expenses: " +:+ str expenses +:+ nl
  +:+ "Savings Jars: " +:+ str savings_jars +:+ nl
  +:+ "Reminders: " +:+ str reminders +:+ nl
  +:+ "Please use this information to respond to the user's query." +:+ nl.

(** The request the assistant sends for a context and a query. *)
Definition submission (context user_prompt : string) : Event :=
  Submitted "gpt-4o"
    [("system", "You are a helpful personal finance assistant.");
     ("user", context +:+ "User Query: " +:+ user_prompt)].

End Assistant.

End Assistant.

(** ** Registration ([register] of [main.py]) *)

Module Signup.

Import Prisma.

(** What the store asks of a new user row. *)
Record Services : Type := mkServices {
  (** [None] when the columns fit the user model, else the message of the
      error the client raises. *)
  user_check : Dict -> option string
}.

Definition set_user (users : list User) (db : DB) : DB :=
  {| engine_fault := engine_fault db; user := users; expense := expense db;
     savingsjar := savingsjar db; reminder := reminder db |}.

(** The next user identifier: one more than the largest in use. *)
Definition fresh_user_id (users : list User) : Z :=
  1 + fold_right (fun u acc => Z.max (id u) acc) 0 users.

(** [db.user.find_unique(where={"email": v})]. *)
Definition user_find_unique_email (v : Value) : St.ST DB (option User) :=
  match v with
  | VStr e =>
      fun db => query (find (fun u => String.eqb (email u) e) (user db)) db
  | _ => St.raise (PyError PrismaError "Invalid value for the field email")
  end.

Section Signup.

Context (srv : Services) (bc : Auth.Bcrypt).

(** [db.user.create(data=data)]: one new user row; the username and the
    email are unique columns. *)
Definition user_create (data : Dict) : St.ST DB User :=
  do _ <- query tt;
  match user_check srv data with
  | Some msg => St.raise (PyError PrismaError msg)
  | None =>
      match get "username" data, get "email" data, get "password" data with
      | VStr n, VStr e, VStr p =>
          fun db =>
            if existsb (fun u => String.eqb (username u) n) (user db)
               || existsb (fun u => String.eqb (email u) e) (user db) then
              (Raise (PyError PrismaError "Unique constraint failed"), db)
            else
              let u := {| id := fresh_user_id (user db); username := n;
                          email := e; phoneNumber := get "phoneNumber" data;
                          password := p |} in
              (Return u, set_user (user db ++ [u]) db)
      | _, _, _ => St.raise (PyError PrismaError "Invalid value for a field of User")
      end
  end.

(** [salt] is what [bcrypt.gensalt()] draws inside [hash_password].  The
    password is hashed before anything is looked up, outside any [try]. *)
Definition register (body : Dict) (salt : bytes) : St.ST DB Dict :=
  let username := get "username" body in
  let email := get "email" body in
  let phone := get "phone_number" body in
  do password <- St.lift (Auth.hash_password bc (get "password" body) salt);
  do existing_username <- user_find_unique_username username;
  match existing_username with
  | Some _ => St.raise (HTTPException 400 "Username already exists")
  | None =>
      do existing_email <- user_find_unique_email email;
      match existing_email with
      | Some _ => St.raise (HTTPException 400 "Email already exists")
      | None =>
          do user <- user_create [("username", username); ("email", email);
                                  ("phoneNumber", phone);
                                  ("password", VStr password)];
          St.ret [("message", VStr "User registered");
                  ("user_id", VInt (id user))]
      end
  end.

End Signup.

End Signup.

(** * Sample worlds

    Concrete libraries, configurations and databases on which the
    statements below are exercised. *)

Module Sample.

Definition cfg : Auth.Config :=
  {| Auth.JWT_SECRET := "s3cret";
     Auth.JWT_ALGORITHM := "HS256";
     Auth.JWT_EXPIRE_MINUTES := 30 |}.

(** A keyed tag that depends on the algorithm, the secret and the
    subject of the payload. *)
Definition mac (alg key : string) (payload : Value) : string :=
  match payload with
  | VDict d =>
      match dict_get "user_id" d with
      | Some (VInt z) => alg +:+ ":" +:+ key +:+ ":" +:+ pretty z
      | _ => alg +:+ ":" +:+ key
      end
  | _ => alg +:+ ":" +:+ key
  end.

(** The claim of user 7 and the token issued for it at time 1000: it
    expires at 2800. *)
Definition claim : Dict := [("user_id", VInt 7)].

Definition token_of_7 : Jose.JWS :=
  {| Jose.jws_alg := "HS256";
     Jose.jws_payload := VDict [("user_id", VInt 7); ("exp", VInt 2800)];
     Jose.jws_signature := "HS256:s3cret:7" |}.

(** The same payload under a signature made with another secret. *)
Definition forged : Jose.JWS :=
  {| Jose.jws_alg := "HS256";
     Jose.jws_payload := VDict [("user_id", VInt 7); ("exp", VInt 2800)];
     Jose.jws_signature := "HS256:guess:7" |}.

(** A well-signed token for a user the store does not know. *)
Definition token_of_9 : Jose.JWS :=
  {| Jose.jws_alg := "HS256";
     Jose.jws_payload := VDict [("user_id", VInt 9); ("exp", VInt 2800)];
     Jose.jws_signature := "HS256:s3cret:9" |}.

(** A codec over four strings. *)
Definition parse (s : string) : option Jose.JWS :=
  if String.eqb s "t7" then Some token_of_7
  else if String.eqb s "forged" then Some forged
  else if String.eqb s "t9" then Some token_of_9
  else None.

Definition serialize (j : Jose.JWS) : string :=
  match Jose.jws_payload j with
  | VDict d =>
      match dict_get "user_id" d with
      | Some (VInt 9) => "t9"
      | _ => "t7"
      end
  | _ => "t7"
  end.

Definition lib : Jose.Library :=
  {| Jose.jws_parse := parse;
     Jose.jws_serialize := serialize;
     Jose.alg_supported := fun a => String.eqb a "HS256";
     Jose.key_usable := fun _ _ => true;
     Jose.mac := mac;
     Jose.int_of_text := fun _ =>
       Raise (PyError JWTClaimsError "Expiration Time claim (exp) must be an integer.");
     Jose.validate_other_claims := fun _ _ => Return tt |}.

(** A store in which the claim is the object at location 1. *)
Definition heap : gmap positive Dict := {[ 1%positive := claim ]}.

(** Two registered users and empty tables. *)
Definition mia : Prisma.User :=
  {| Prisma.id := 7; Prisma.username := "mia"; Prisma.email := "m@x.com";
     Prisma.phoneNumber := VStr "555-0100"; Prisma.password := "hash:pw123" |}.

Definition bob : Prisma.User :=
  {| Prisma.id := 8; Prisma.username := "bob"; Prisma.email := "b@x.com";
     Prisma.phoneNumber := VNone; Prisma.password := "hash:hunter2" |}.

Definition db : Prisma.DB :=
  {| Prisma.engine_fault := None; Prisma.user := [mia; bob];
     Prisma.expense := []; Prisma.savingsjar := []; Prisma.reminder := [] |}.

(** A schema that asks for nothing. *)
Definition schema : Prisma.Schema :=
  {| Prisma.schema_check := fun _ _ => None |}.

(** A bcrypt that refuses a password of more than 72 bytes, as version 5
    of the package does, and whose hash of a password is the password
    behind a tag; the codec takes every string. *)
Definition too_long (password : bytes) : bool :=
  (72 <? length password)%nat.

Definition refusal : Exception :=
  PyError ValueError "password cannot be longer than 72 bytes".

Definition bcrypt : Auth.Bcrypt :=
  {| Auth.encode := fun s => Return (list_byte_of_string s);
     Auth.decode := fun b => Return (string_of_list_byte b);
     Auth.hashpw := fun password _ =>
       if too_long password then Raise refusal
       else Return (list_byte_of_string "hash:" ++ password);
     Auth.checkpw := fun password hashed =>
       if too_long password then Raise refusal
       else Return (String.eqb (string_of_list_byte hashed)
                      ("hash:" +:+ string_of_list_byte password)) |}.

(** A password of 73 bytes. *)
Definition long_password : string :=
  "0123456789012345678901234567890123456789012345678901234567890123456789012".

(** The value [gensalt] drew. *)
Definition salt : bytes := list_byte_of_string "salt".

(** A calendar that knows one date. *)
Definition dt : Main.Datetime :=
  {| Main.fromisoformat := fun s =>
       if String.eqb s "2025-01-31T00:00:00" then Some 1738281600 else None;
     Main.isoformat := fun _ => "2025-01-31T00:00:00" |}.

(** A lunch, with an owner the client made up. *)
Definition lunch : Dict :=
  [("category", VStr "Food"); ("amount", VInt 12); ("note", VStr "lunch");
   ("recurring", VBool false); ("userId", VInt 8)].

Definition rent : Dict :=
  [("category", VStr "Housing"); ("amount", VInt 900); ("note", VNone);
   ("recurring", VBool true)].

(** A reminder sent without its due date. *)
Definition reminder_without_date : Dict :=
  [("name", VStr "rent"); ("amount", VInt 900)].

(** A backend that answers every list route with an empty array. *)
Definition backend_up (url : string) (headers : list (string * string))
  : Outcome Assistant.Response :=
  Return {| Assistant.status_code := 200; Assistant.json := Some (VList []) |}.

(** A backend whose reminders route answers 500. *)
Definition backend_reminders_down (url : string)
    (headers : list (string * string)) : Outcome Assistant.Response :=
  if String.eqb url "http://localhost:8000/get_reminders" then
    Return {| Assistant.status_code := 500; Assistant.json := None |}
  else backend_up url headers.

Definition quote (s : string) : string := "'" +:+ s +:+ "'".

(** A completion service that answers. *)
Definition srv : Assistant.Services :=
  {| Assistant.requests_get := backend_up;
     Assistant.api_key_accepted := fun k => negb (String.eqb k "");
     Assistant.chat_completions_create := fun _ _ _ =>
       Return [Some "You have no expenses yet."];
     Assistant.repr_str := quote;
     Assistant.repr_float := fun _ => "0.0";
     Assistant.repr_datetime := fun _ => "datetime.datetime(2025, 1, 31, 0, 0)" |}.

(** The same world with the reminders route down. *)
Definition srv_reminders_down : Assistant.Services :=
  {| Assistant.requests_get := backend_reminders_down;
     Assistant.api_key_accepted := fun k => negb (String.eqb k "");
     Assistant.chat_completions_create := fun _ _ _ =>
       Return [Some "You have no expenses yet."];
     Assistant.repr_str := quote;
     Assistant.repr_float := fun _ => "0.0";
     Assistant.repr_datetime := fun _ => "datetime.datetime(2025, 1, 31, 0, 0)" |}.

(** The same world with a completion service that refuses the call. *)
Definition srv_quota : Assistant.Services :=
  {| Assistant.requests_get := backend_up;
     Assistant.api_key_accepted := fun k => negb (String.eqb k "");
     Assistant.chat_completions_create := fun _ _ _ =>
       Raise (PyError OpenAIError "quota exceeded for key sk-live-1234");
     Assistant.repr_str := quote;
     Assistant.repr_float := fun _ => "0.0";
     Assistant.repr_datetime := fun _ => "datetime.datetime(2025, 1, 31, 0, 0)" |}.

(** Two requests of mia around one of bob. *)
Definition requests : list (Prisma.User * Dict) :=
  [(mia, lunch); (bob, rent); (mia, rent)].

End Sample.

(** ** Telling submissions from the other events *)

#[global]
Instance is_submission_dec (ev : Assistant.Event)
  : Decision (Assistant.is_submission ev).
Proof. destruct ev; simpl; apply _. Defined.

(** * Further sample worlds *)

Module Scenario.

(** A validly signed token whose payload is the empty object, and one
    that names another algorithm. *)
Definition empty_token : Jose.JWS :=
  {| Jose.jws_alg := "HS256";
     Jose.jws_payload := VDict [];
     Jose.jws_signature := "HS256:s3cret" |}.

Definition other_alg_token : Jose.JWS :=
  {| Jose.jws_alg := "HS512";
     Jose.jws_payload := VDict [("user_id", VInt 7); ("exp", VInt 2800)];
     Jose.jws_signature := "HS512:s3cret:7" |}.

Definition parse (s : string) : option Jose.JWS :=
  if String.eqb s "empty" then Some empty_token
  else if String.eqb s "hs512" then Some other_alg_token
  else Sample.parse s.

Definition lib : Jose.Library :=
  {| Jose.jws_parse := parse;
     Jose.jws_serialize := Sample.serialize;
     Jose.alg_supported := fun a => String.eqb a "HS256" || String.eqb a "HS512";
     Jose.key_usable := fun _ _ => true;
     Jose.mac := Sample.mac;
     Jose.int_of_text := Jose.int_of_text Sample.lib;
     Jose.validate_other_claims := fun _ _ => Return tt |}.

(** A store that accepts every user row. *)
Definition signup : Signup.Services :=
  {| Signup.user_check := fun _ => None |}.

(** The registration of the specification's scenario, and one under a
    name that is taken. *)
Definition zoe : Dict :=
  [("username", VStr "zoe"); ("email", VStr "z@x.com");
   ("phone_number", VStr "555-0199"); ("password", VStr "pw456")].

Definition second_mia : Dict :=
  [("username", VStr "mia"); ("email", VStr "m@x.com");
   ("password", VStr "other")].

(** The sample database with its engine down. *)
Definition db_down : Prisma.DB :=
  {| Prisma.engine_fault := Some "Can't reach database server";
     Prisma.user := [Sample.mia; Sample.bob];
     Prisma.expense := []; Prisma.savingsjar := []; Prisma.reminder := [] |}.

(** A backend whose first route refuses the connection. *)
Definition backend_unreachable (url : string)
    (headers : list (string * string)) : Outcome Assistant.Response :=
  Raise (PyError RequestException "Connection refused").

Definition srv_unreachable : Assistant.Services :=
  {| Assistant.requests_get := backend_unreachable;
     Assistant.api_key_accepted := fun k => negb (String.eqb k "");
     Assistant.chat_completions_create := fun _ _ _ =>
       Return [Some "You have no expenses yet."];
     Assistant.repr_str := Sample.quote;
     Assistant.repr_float := fun _ => "0.0";
     Assistant.repr_datetime := fun _ => "datetime.datetime(2025, 1, 31, 0, 0)" |}.

(** A completion service whose first choice has no content. *)
Definition srv_no_content : Assistant.Services :=
  {| Assistant.requests_get := Sample.backend_up;
     Assistant.api_key_accepted := fun k => negb (String.eqb k "");
     Assistant.chat_completions_create := fun _ _ _ =>
       Return [None; Some "a second choice"];
     Assistant.repr_str := Sample.quote;
     Assistant.repr_float := fun _ => "0.0";
     Assistant.repr_datetime := fun _ => "datetime.datetime(2025, 1, 31, 0, 0)" |}.

(** A completion service that answers with no choice at all. *)
Definition srv_no_choice : Assistant.Services :=
  {| Assistant.requests_get := Sample.backend_up;
     Assistant.api_key_accepted := fun k => negb (String.eqb k "");
     Assistant.chat_completions_create := fun _ _ _ => Return [];
     Assistant.repr_str := Sample.quote;
     Assistant.repr_float := fun _ => "0.0";
     Assistant.repr_datetime := fun _ => "datetime.datetime(2025, 1, 31, 0, 0)" |}.

End Scenario.

(** * Properties *)

(** ** Dictionaries *)

Section DictFacts.

Lemma dict_get_set_eq k v d : dict_get k (dict_set k v d) = Some v.
Proof.
  induction d as [|[k' v'] d IH]; simpl.
  - now rewrite String.eqb_refl.
  - destruct (String.eqb k k') eqn:E; simpl; rewrite E; auto.
Qed.

Lemma dict_get_set_ne k k' v d :
  k <> k' -> dict_get k (dict_set k' v d) = dict_get k d.
Proof.
  intros Hne. induction d as [|[k0 v0] d IH]; simpl.
  - apply String.eqb_neq in Hne. now rewrite Hne.
  - destruct (String.eqb k' k0) eqn:E; simpl.
    + apply String.eqb_eq in E. subst k0.
      apply String.eqb_neq in Hne. now rewrite Hne.
    + destruct (String.eqb k k0); auto.
Qed.

Lemma dict_set_set k v1 v2 d :
  dict_set k v2 (dict_set k v1 d) = dict_set k v2 d.
Proof.
  induction d as [|[k' v'] d IH]; simpl.
  - now rewrite String.eqb_refl.
  - destruct (String.eqb k k') eqn:E; simpl; rewrite E; congruence.
Qed.

Lemma dict_set_serialisable k v d :
  json_serialisable v = true ->
  json_serialisable (VDict d) = true ->
  json_serialisable (VDict (dict_set k v d)) = true.
Proof.
  intros Hv. induction d as [|[k' v'] d IH]; simpl.
  - intros _. now rewrite Hv.
  - intros H. apply andb_true_iff in H as [H1 H2].
    destruct (String.eqb k k'); simpl.
    + now rewrite Hv.
    + rewrite H1. now apply IH.
Qed.

Lemma serialisable_no_datetime k d t :
  json_serialisable (VDict d) = true -> dict_get k d <> Some (VDatetime t).
Proof.
  induction d as [|[k' v'] d IH]; simpl; [discriminate|].
  intros H. apply andb_true_iff in H as [H1 H2].
  destruct (String.eqb k k').
  - intros [= ->]. discriminate.
  - now apply IH.
Qed.

End DictFacts.

(** ** The object store: what a computation leaves alone *)

Section StoreFacts.

Lemma touches_only_ret {A} l (a : A) : Store.touches_only l (St.ret a).
Proof. intros h l' _. reflexivity. Qed.

Lemma touches_only_raise {A} l e : Store.touches_only l (@St.raise _ A e).
Proof. intros h l' _. reflexivity. Qed.

Lemma touches_only_read l l0 : Store.touches_only l (Store.read l0).
Proof. intros h l' _. reflexivity. Qed.

Lemma touches_only_setitem l k v : Store.touches_only l (Store.setitem l k v).
Proof. intros h l' Hne. unfold Store.setitem; simpl. now rewrite lookup_insert_ne. Qed.

Lemma touches_only_update l other : Store.touches_only l (Store.update l other).
Proof. intros h l' Hne. unfold Store.update; simpl. now rewrite lookup_insert_ne. Qed.

Lemma touches_only_bind {A B} l (c : Store.ST A) (k : A -> Store.ST B) :
  Store.touches_only l c -> (forall a, Store.touches_only l (k a)) ->
  Store.touches_only l (St.bind c k).
Proof.
  intros Hc Hk h l' Hne. unfold St.bind.
  specialize (Hc h l' Hne). destruct (c h) as [[a|e] h']; simpl in *.
  - rewrite Hk; auto.
  - exact Hc.
Qed.

Lemma touches_only_convert l k :
  Store.touches_only l (Jose.convert_time_claim l k).
Proof.
  unfold Jose.convert_time_claim. apply touches_only_bind.
  - apply touches_only_read.
  - intros d. destruct (dict_get k d) as [[]|];
      auto using touches_only_ret, touches_only_setitem.
Qed.

Lemma touches_only_jwt_encode lib l key alg :
  Store.touches_only l (Jose.jwt_encode lib l key alg).
Proof.
  unfold Jose.jwt_encode.
  repeat (apply touches_only_bind;
          [first [apply touches_only_convert | apply touches_only_read]|intros ?]).
  repeat match goal with
         | |- Store.touches_only _ (if ?b then _ else _) => destruct b
         end; auto using touches_only_ret, touches_only_raise.
Qed.

End StoreFacts.

(** ** [auth.py]: issuing and validating tokens *)

Section AuthFacts.

Context (lib : Jose.Library) (cfg : Auth.Config).

Lemma bind_return {S A B} (c : St.ST S A) (k : A -> St.ST S B) s a s' :
  c s = (Return a, s') -> St.bind c k s = k a s'.
Proof. intros H. unfold St.bind. now rewrite H. Qed.

Lemma bind_raise {S A B} (c : St.ST S A) (k : A -> St.ST S B) s e s' :
  c s = (Raise e, s') -> St.bind c k s = (Raise e, s').
Proof. intros H. unfold St.bind. now rewrite H. Qed.

Lemma convert_time_claim_datetime (h : gmap positive Dict) l k d t :
  h !! l = Some d -> dict_get k d = Some (VDatetime t) ->
  Jose.convert_time_claim l k h = (Return tt, <[l := dict_set k (VInt t) d]> h).
Proof.
  intros Hl Hk. unfold Jose.convert_time_claim, St.bind, Store.read, Store.setitem.
  rewrite Hl; simpl. now rewrite Hk, Hl.
Qed.

Lemma convert_time_claim_other (h : gmap positive Dict) l k d :
  h !! l = Some d -> (forall t, dict_get k d <> Some (VDatetime t)) ->
  Jose.convert_time_claim l k h = (Return tt, h).
Proof.
  intros Hl Hk. unfold Jose.convert_time_claim, St.bind, Store.read.
  rewrite Hl; simpl. destruct (dict_get k d) as [[]|] eqn:E; try reflexivity.
  now destruct (Hk t).
Qed.

(** The token [create_access_token] returns for a claim that
    [json.dumps] accepts, under a usable configuration. *)
Lemma create_access_token_result (h : gmap positive Dict) data claim now :
  h !! data = Some claim ->
  json_serialisable (VDict claim) = true ->
  Auth.config_usable lib cfg ->
  (Auth.create_access_token lib cfg data now h).1
  = Return (Jose.jws_serialize lib (Auth.issued lib cfg claim now)).
Proof.
  intros Hdata Hser [Halg Hkey].
  set (e := Auth.expiry cfg now).
  set (l := fresh (dom h)).
  set (h3 := <[l := dict_set "exp" (VInt e) claim]>
               (<[l := dict_set "exp" (VDatetime e) claim]> (<[l := claim]> h))).
  assert (Hl3 : h3 !! l = Some (dict_set "exp" (VInt e) claim))
    by apply lookup_insert_eq.
  assert (Hser3 : json_serialisable (VDict (dict_set "exp" (VInt e) claim)) = true)
    by now apply dict_set_serialisable.
  assert (Hl2 : (<[l := dict_set "exp" (VDatetime e) claim]> (<[l := claim]> h))
                !! l = Some (dict_set "exp" (VDatetime e) claim))
    by apply lookup_insert_eq.
  unfold Auth.create_access_token, Store.dict_copy, Jose.jwt_encode.
  rewrite (bind_return _ _ h l (<[l := claim]> h)).
  2:{ rewrite (bind_return _ _ h claim h); [reflexivity|].
      unfold Store.read. now rewrite Hdata. }
  rewrite (bind_return _ _ _ tt
             (<[l := dict_set "exp" (VDatetime e) claim]> (<[l := claim]> h))).
  2:{ unfold Store.update. now rewrite lookup_insert_eq. }
  rewrite (bind_return _ _ _ tt h3).
  2:{ rewrite (convert_time_claim_datetime _ l "exp" _ e Hl2 (dict_get_set_eq _ _ _)).
      now rewrite dict_set_set. }
  rewrite (bind_return _ _ _ tt h3).
  2:{ apply (convert_time_claim_other h3 l "iat" _ Hl3).
      intros t; now apply serialisable_no_datetime. }
  rewrite (bind_return _ _ _ tt h3).
  2:{ apply (convert_time_claim_other h3 l "nbf" _ Hl3).
      intros t; now apply serialisable_no_datetime. }
  rewrite (bind_return _ _ _ (dict_set "exp" (VInt e) claim) h3).
  2:{ unfold Store.read. now rewrite Hl3. }
  rewrite Halg, Hser3, Hkey. reflexivity.
Qed.

End AuthFacts.

Section TokenService.

Context (lib : Jose.Library) (cfg : Auth.Config).

Lemma decode_token_of_decoded token now payload :
  Jose.jwt_decode lib token (Auth.JWT_SECRET cfg) [Auth.JWT_ALGORITHM cfg] now
  = Return payload ->
  Auth.decode_token lib cfg token now = Return (Some payload).
Proof. intros H. unfold Auth.decode_token. now rewrite H. Qed.

Lemma decode_token_of_raised token now e :
  Jose.jwt_decode lib token (Auth.JWT_SECRET cfg) [Auth.JWT_ALGORITHM cfg] now
  = Raise e ->
  Auth.decode_token lib cfg token now = Return None.
Proof. intros H. unfold Auth.decode_token. now rewrite H. Qed.

(** What [jwt.decode] answers for a token that parses, names the configured
    algorithm, carries a signature that verifies and an integer [exp]. *)
Lemma jwt_decode_checked token now j claims e :
  Jose.jws_parse lib token = Some j ->
  Jose.jws_alg j = Auth.JWT_ALGORITHM cfg ->
  Jose.signature_verifies lib j (Auth.JWT_SECRET cfg) = true ->
  Jose.jws_payload j = VDict claims ->
  dict_get "exp" claims = Some (VInt e) ->
  Jose.jwt_decode lib token (Auth.JWT_SECRET cfg) [Auth.JWT_ALGORITHM cfg] now
  = if e <? now then Raise (PyError ExpiredSignatureError "Signature has expired.")
    else let* _ := Jose.validate_other_claims lib claims now in Return claims.
Proof.
  intros Hp Ha Hs Hc He. unfold Jose.jwt_decode. rewrite Hp, Ha; simpl.
  rewrite String.eqb_refl; simpl. rewrite Hs, Hc; simpl.
  unfold Jose.validate_exp. rewrite He; simpl.
  now destruct (e <? now).
Qed.

(** A token that parses, names the configured algorithm, verifies and
    has not expired decodes to its payload. *)
Lemma decode_token_current token now j claims e :
  Jose.jws_parse lib token = Some j ->
  Jose.jws_alg j = Auth.JWT_ALGORITHM cfg ->
  Jose.signature_verifies lib j (Auth.JWT_SECRET cfg) = true ->
  Jose.jws_payload j = VDict claims ->
  dict_get "exp" claims = Some (VInt e) ->
  now <= e ->
  Jose.validate_other_claims lib claims now = Return tt ->
  Auth.decode_token lib cfg token now = Return (Some claims).
Proof.
  intros Hp Ha Hs Hc He Hle Hv. apply decode_token_of_decoded.
  rewrite (jwt_decode_checked token now j claims e Hp Ha Hs Hc He).
  apply Z.ltb_ge in Hle. rewrite Hle, Hv. reflexivity.
Qed.

(** A token whose expiry is in the past decodes to the invalid result,
    whatever else is right or wrong with it. *)
Lemma decode_token_expired token now j claims e :
  Jose.jws_parse lib token = Some j ->
  Jose.jws_payload j = VDict claims ->
  dict_get "exp" claims = Some (VInt e) ->
  e < now ->
  Auth.decode_token lib cfg token now = Return None.
Proof.
  intros Hp Hc He Hlt.
  destruct (Jose.jwt_decode lib token (Auth.JWT_SECRET cfg)
              [Auth.JWT_ALGORITHM cfg] now) as [p|x] eqn:E;
    [|now apply (decode_token_of_raised token now x)].
  exfalso. unfold Jose.jwt_decode in E. rewrite Hp, Hc in E.
  unfold Jose.validate_exp in E. rewrite He in E. simpl in E.
  apply Z.ltb_lt in Hlt. rewrite Hlt in E.
  repeat match type of E with
         | (if ?b then _ else _) = _ => destruct b
         end; discriminate.
Qed.

End TokenService.

(** C3. Validation reports every failure alike and never raises:
    [decode_token] returns the payload exactly when [jwt.decode] returns
    it, and returns the one invalid result [None] whenever [jwt.decode]
    raises, whatever the cause: a string that is no token, a signature
    that does not verify, an expiry in the past.  A token that parses,
    names the configured algorithm, verifies and has not expired yields
    its embedded payload. *)
Theorem decode_token_uniform (lib : Jose.Library) (cfg : Auth.Config)
    (token : string) (now : Z) :
  let decoded :=
    Jose.jwt_decode lib token (Auth.JWT_SECRET cfg) [Auth.JWT_ALGORITHM cfg] now in
  let result := Auth.decode_token lib cfg token now in
  (forall payload, decoded = Return payload -> result = Return (Some payload))
  /\ (forall e, decoded = Raise e -> result = Return None)
  /\ (result = Return None
      \/ exists payload, decoded = Return payload /\ result = Return (Some payload))
  /\ (Jose.jws_parse lib token = None -> result = Return None)
  /\ (forall j, Jose.jws_parse lib token = Some j ->
                Jose.signature_verifies lib j (Auth.JWT_SECRET cfg) = false ->
                result = Return None)
  /\ (forall j claims e,
        Jose.jws_parse lib token = Some j ->
        Jose.jws_payload j = VDict claims ->
        dict_get "exp" claims = Some (VInt e) ->
        e < now ->
        result = Return None)
  /\ (forall j claims e,
        Jose.jws_parse lib token = Some j ->
        Jose.jws_alg j = Auth.JWT_ALGORITHM cfg ->
        Jose.signature_verifies lib j (Auth.JWT_SECRET cfg) = true ->
        Jose.jws_payload j = VDict claims ->
        dict_get "exp" claims = Some (VInt e) ->
        now <= e ->
        Jose.validate_other_claims lib claims now = Return tt ->
        result = Return (Some claims)).
Proof.
  intros decoded result.
  assert (Hret : forall payload,
             decoded = Return payload -> result = Return (Some payload))
    by (intros; now apply decode_token_of_decoded).
  assert (Hraise : forall e, decoded = Raise e -> result = Return None)
    by (intros e He; now apply (decode_token_of_raised lib cfg token now e)).
  split; [exact Hret|]. split; [exact Hraise|].
  split; [|split; [|split; [|split]]].
  - destruct decoded as [p|e] eqn:E.
    + right. exists p. auto.
    + left. eauto.
  - intros Hp. apply (Hraise (PyError JWTError "Not enough segments")).
    subst decoded. unfold Jose.jwt_decode. now rewrite Hp.
  - intros j Hp Hs. subst decoded. unfold Jose.jwt_decode in *.
    rewrite Hp in *. rewrite Hs in *; simpl in *.
    destruct (negb (String.eqb (Jose.jws_alg j) (Auth.JWT_ALGORITHM cfg) || false));
      eapply Hraise; reflexivity.
  - intros j claims e Hp Hc He Hlt.
    now apply (decode_token_expired lib cfg token now j claims e).
  - intros j claims e Hp Ha Hs Hc He Hle Hv.
    now apply (decode_token_current lib cfg token now j claims e).
Qed.

(** The statement of C3 on four inputs: a string that is no token, a
    forged signature, an expired token and a current one. *)
Lemma decode_token_uniform_witness :
  Auth.decode_token Sample.lib Sample.cfg "garbage" 1000 = Return None
  /\ Auth.decode_token Sample.lib Sample.cfg "forged" 1000 = Return None
  /\ Auth.decode_token Sample.lib Sample.cfg "t7" 5000 = Return None
  /\ Auth.decode_token Sample.lib Sample.cfg "t7" 1000
     = Return (Some [("user_id", VInt 7); ("exp", VInt 2800)]).
Proof.
  split; [|split; [|split]].
  - apply (decode_token_uniform Sample.lib Sample.cfg "garbage" 1000).
    reflexivity.
  - apply (proj1 (proj2 (proj2 (proj2 (proj2
             (decode_token_uniform Sample.lib Sample.cfg "forged" 1000)))))
             Sample.forged); reflexivity.
  - apply (proj1 (proj2 (proj2 (proj2 (proj2 (proj2
             (decode_token_uniform Sample.lib Sample.cfg "t7" 5000))))))
             Sample.token_of_7 [("user_id", VInt 7); ("exp", VInt 2800)] 2800);
      try reflexivity.
  - apply (proj2 (proj2 (proj2 (proj2 (proj2 (proj2
             (decode_token_uniform Sample.lib Sample.cfg "t7" 1000))))))
             Sample.token_of_7 [("user_id", VInt 7); ("exp", VInt 2800)] 2800);
      try reflexivity. discriminate.
Defined.

(** C5. Round trip and expiry: the token that [create_access_token]
    issues for a claim at [issued_at] decodes, up to the end of the
    configured lifetime, to the claim with its expiry added, so every entry
    of the claim (the user identifier) is read back unchanged; once the
    lifetime has elapsed the same token decodes to the invalid result. *)
Theorem token_round_trip (lib : Jose.Library) (cfg : Auth.Config)
    (h : gmap positive Dict) (data : positive) (claim : Dict)
    (issued_at now : Z) :
  h !! data = Some claim ->
  json_serialisable (VDict claim) = true ->
  Auth.config_usable lib cfg ->
  Jose.reads_back lib (Auth.issued lib cfg claim issued_at) ->
  exists token,
    (Auth.create_access_token lib cfg data issued_at h).1 = Return token
    /\ (now <= Auth.expiry cfg issued_at ->
        Jose.validate_other_claims lib
          (Auth.issued_payload cfg claim issued_at) now = Return tt ->
        Auth.decode_token lib cfg token now
        = Return (Some (Auth.issued_payload cfg claim issued_at))
        /\ forall k, k <> "exp" ->
             dict_get k (Auth.issued_payload cfg claim issued_at)
             = dict_get k claim)
    /\ (Auth.expiry cfg issued_at < now ->
        Auth.decode_token lib cfg token now = Return None).
Proof.
  intros Hdata Hser Hcfg Hback.
  exists (Jose.jws_serialize lib (Auth.issued lib cfg claim issued_at)).
  split; [now apply create_access_token_result|].
  assert (Hsig : Jose.signature_verifies lib (Auth.issued lib cfg claim issued_at)
                   (Auth.JWT_SECRET cfg) = true).
  { unfold Jose.signature_verifies; simpl.
    destruct Hcfg as [_ ->]. now rewrite String.eqb_refl. }
  assert (Hexp : dict_get "exp" (Auth.issued_payload cfg claim issued_at)
                 = Some (VInt (Auth.expiry cfg issued_at)))
    by apply dict_get_set_eq.
  split.
  - intros Hle Hother. split.
    + apply (decode_token_current lib cfg _ now _ _ _
               Hback eq_refl Hsig eq_refl Hexp Hle Hother).
    + intros k Hk. unfold Auth.issued_payload. now apply dict_get_set_ne.
  - intros Hlt.
    apply (decode_token_expired lib cfg _ now _ _ _ Hback eq_refl Hexp Hlt).
Qed.

(** C5 on the sample world: the claim of user 7, issued at 1000 with a
    lifetime of thirty minutes, read at 1000 and at 5000. *)
Lemma token_round_trip_witness :
  exists token,
    (Auth.create_access_token Sample.lib Sample.cfg 1%positive 1000 Sample.heap).1
    = Return token
    /\ Auth.decode_token Sample.lib Sample.cfg token 1000
       = Return (Some [("user_id", VInt 7); ("exp", VInt 2800)])
    /\ Auth.decode_token Sample.lib Sample.cfg token 5000 = Return None.
Proof.
  destruct (token_round_trip Sample.lib Sample.cfg Sample.heap 1%positive
              Sample.claim 1000 1000) as (token & Htok & Hvalid & _);
    [reflexivity|reflexivity|split; reflexivity|reflexivity|].
  destruct (token_round_trip Sample.lib Sample.cfg Sample.heap 1%positive
              Sample.claim 1000 5000) as (token' & Htok' & _ & Hstale);
    [reflexivity|reflexivity|split; reflexivity|reflexivity|].
  exists token. split; [exact Htok|]. split.
  - apply Hvalid; [discriminate|reflexivity].
  - assert (token = token') as -> by congruence.
    apply Hstale. reflexivity.
Defined.

(** C10. Issuing a token leaves the caller's dictionary as it was: the
    expiry goes into the copy, and no object that existed before the call
    is changed by it. *)
Theorem create_access_token_keeps_argument (lib : Jose.Library)
    (cfg : Auth.Config) (h : gmap positive Dict) (data : positive)
    (claim : Dict) (now : Z) :
  h !! data = Some claim ->
  let h' := (Auth.create_access_token lib cfg data now h).2 in
  h' !! data = Some claim
  /\ forall l d, h !! l = Some d -> h' !! l = Some d.
Proof.
  intros Hdata h'.
  assert (Hall : forall l d, h !! l = Some d -> h' !! l = Some d).
  { intros l d Hl. subst h'.
    set (l0 := fresh (dom h)).
    assert (Hne : l <> l0).
    { intros ->. pose proof (is_fresh (dom h)) as Hfresh. apply Hfresh.
      apply elem_of_dom. eauto. }
    unfold Auth.create_access_token, Store.dict_copy.
    rewrite (bind_return _ _ h l0 (<[l0 := claim]> h)).
    2:{ rewrite (bind_return _ _ h claim h); [reflexivity|].
        unfold Store.read. now rewrite Hdata. }
    rewrite (touches_only_bind l0 _ _ (touches_only_update l0 _)
               (fun _ => touches_only_jwt_encode lib l0 _ _) _ l Hne).
    now rewrite lookup_insert_ne. }
  split; auto.
Qed.

(** C10 on the sample store, whose object 1 is the claim of user 7. *)
Lemma create_access_token_keeps_argument_witness :
  (Auth.create_access_token Sample.lib Sample.cfg 1%positive 1000 Sample.heap).2
    !! 1%positive = Some [("user_id", VInt 7)].
Proof.
  destruct (create_access_token_keeps_argument Sample.lib Sample.cfg
              Sample.heap 1%positive Sample.claim 1000) as [Hsame _].
  - reflexivity.
  - exact Hsame.
Defined.

(** ** The relational store *)

Section PrismaFacts.

Import Prisma.

Context (schema : Schema).

Lemma table_set_table m rows db : table m (set_table m rows db) = rows.
Proof. now destruct m. Qed.

Lemma table_set_table_ne m m' rows db :
  m' <> m -> table m' (set_table m rows db) = table m' db.
Proof. destruct m, m'; simpl; congruence. Qed.

Lemma user_set_table m rows db : user (set_table m rows db) = user db.
Proof. now destruct m. Qed.

Lemma engine_fault_set_table m rows db :
  engine_fault (set_table m rows db) = engine_fault db.
Proof. now destruct m. Qed.

(** An acknowledged [create] appended exactly one row, owned by the user
    that [data["userId"]] names, and touched nothing else. *)
Lemma create_returned m data db r db' :
  create schema m data db = (Return r, db') ->
  exists uid,
    get "userId" data = VInt uid
    /\ userId r = uid
    /\ table m db' = table m db ++ [r]
    /\ (forall m', m' <> m -> table m' db' = table m' db)
    /\ user db' = user db
    /\ engine_fault db = None
    /\ engine_fault db' = None.
Proof.
  unfold create, St.bind, query, St.raise.
  destruct (engine_fault db) eqn:Hf; [discriminate|].
  destruct (schema_check schema m data); [discriminate|].
  destruct (get "userId" data) eqn:Hu; try discriminate.
  destruct (existsb _ _); [|discriminate].
  intros [= <- <-]. exists z. simpl.
  rewrite table_set_table, user_set_table, engine_fault_set_table.
  repeat split; auto using table_set_table_ne.
Qed.

(** A [create] that raises leaves the database as it was. *)
Lemma create_raised m data db e db' :
  create schema m data db = (Raise e, db') -> db' = db.
Proof.
  unfold create, St.bind, query, St.raise.
  destruct (engine_fault db); [now intros [= _ <-]|].
  destruct (schema_check schema m data); [now intros [= _ <-]|].
  destruct (get "userId" data); try now intros [= _ <-].
  destruct (existsb _ _); [discriminate|now intros [= _ <-]].
Qed.

(** The shape every creator has: [create] under [try], the
    acknowledgement built from the new row, any error turned into a 500. *)
Lemma guarded_create_returned m data (ack : Row -> Dict) db a db' :
  St.try_except
    (do r <- create schema m data; St.ret (ack r))
    (fun e => St.raise (HTTPException 500 (str_of_exn e))) db
  = (Return a, db') ->
  exists r, create schema m data db = (Return r, db') /\ a = ack r.
Proof.
  unfold St.try_except, St.bind, St.ret, St.raise.
  destruct (create schema m data db) as [[r|e] db1]; [|discriminate].
  intros [= <- <-]. eauto.
Qed.

Lemma find_many_answer m uid db :
  engine_fault db = None ->
  find_many m uid db = (Return (filter (fun r => userId r = uid) (table m db)), db).
Proof. intros Hf. unfold find_many, query. now rewrite Hf. Qed.

End PrismaFacts.

(** ** [main.py]: the gate and the handlers *)

Section MainFacts.

Import Prisma.

Context (lib : Jose.Library) (cfg : Auth.Config).
Context (schema : Schema) (dt : Main.Datetime).

Lemma user_find_unique_id_state v db : (user_find_unique_id v db).2 = db.
Proof.
  destruct v; try reflexivity. unfold user_find_unique_id, query.
  now destruct (engine_fault db).
Qed.

(** The gate reads and never writes. *)
Lemma get_current_user_state token now db :
  (Main.get_current_user lib cfg token now db).2 = db.
Proof.
  unfold Main.get_current_user, St.bind, St.lift.
  destruct (Auth.decode_token lib cfg token now) as [payload|e]; [|reflexivity].
  destruct (negb (truthy (dict_or_none payload))); [reflexivity|].
  pose proof (user_find_unique_id_state
                (get "user_id" (default [] payload)) db) as Hs.
  destruct (user_find_unique_id _ db) as [[[u|]|e] db1]; simpl in *; congruence.
Qed.

(** A route behind the gate answers only after the gate resolved a user,
    and then runs its handler for that user on the same database. *)
Lemma authenticated_returned {A} (h : User -> St.ST DB A) token now db a db' :
  Main.authenticated lib cfg h token now db = (Return a, db') ->
  exists u,
    Main.get_current_user lib cfg token now db = (Return u, db)
    /\ h u db = (Return a, db').
Proof.
  unfold Main.authenticated, St.bind.
  pose proof (get_current_user_state token now db) as Hs.
  destruct (Main.get_current_user lib cfg token now db) as [[u|e] db1];
    simpl in Hs; subst db1; [|discriminate].
  intros H. eauto.
Qed.

Lemma add_expense_returned body u db ack db' :
  Main.add_expense schema body u db = (Return ack, db') ->
  exists r,
    expense db' = expense db ++ [r] /\ userId r = id u
    /\ savingsjar db' = savingsjar db /\ reminder db' = reminder db
    /\ user db' = user db /\ engine_fault db' = engine_fault db.
Proof.
  unfold Main.add_expense.
  destruct (negb (truthy (VInt (id u)))); [discriminate|].
  intros H. apply guarded_create_returned in H as (r & H & _).
  apply create_returned in H as (uid & Hu & Hr & Ht & Ho & Hus & Hf & Hf').
  exists r. injection Hu as <-.
  repeat split; auto; try (apply (Ho SavingsJar) || apply (Ho Reminder));
    congruence.
Qed.

Lemma add_savings_jar_returned body u db ack db' :
  Main.add_savings_jar schema body u db = (Return ack, db') ->
  exists r,
    savingsjar db' = savingsjar db ++ [r] /\ userId r = id u
    /\ expense db' = expense db /\ reminder db' = reminder db
    /\ user db' = user db /\ engine_fault db' = engine_fault db.
Proof.
  unfold Main.add_savings_jar.
  intros H. apply guarded_create_returned in H as (r & H & _).
  apply create_returned in H as (uid & Hu & Hr & Ht & Ho & Hus & Hf & Hf').
  exists r. injection Hu as <-.
  repeat split; auto; try (apply (Ho Expense) || apply (Ho Reminder));
    congruence.
Qed.

Lemma add_reminder_returned body u db ack db' :
  Main.add_reminder schema dt body u db = (Return ack, db') ->
  exists r,
    reminder db' = reminder db ++ [r] /\ userId r = id u
    /\ expense db' = expense db /\ savingsjar db' = savingsjar db
    /\ user db' = user db /\ engine_fault db' = engine_fault db.
Proof.
  unfold Main.add_reminder. unfold St.bind at 1, St.lift.
  destruct (try_except_class _ _ _) as [due|e]; [|discriminate].
  intros H. apply guarded_create_returned in H as (r & H & _).
  apply create_returned in H as (uid & Hu & Hr & Ht & Ho & Hus & Hf & Hf').
  exists r. injection Hu as <-.
  repeat split; auto; try (apply (Ho Expense) || apply (Ho SavingsJar));
    congruence.
Qed.

Lemma list_handler_answer m (u : User) db :
  engine_fault db = None ->
  St.try_except (find_many m (id u))
    (fun e => St.raise (HTTPException 500 (str_of_exn e))) db
  = (Return (filter (fun r => userId r = id u) (table m db)), db).
Proof. intros Hf. unfold St.try_except. now rewrite find_many_answer. Qed.

(** What a run of acknowledged [add_expense] requests leaves in the
    table: one row per request, in order, each owned by its requester. *)
Lemma add_expenses_rows requests : forall db db',
  Main.add_expenses schema requests db = Some db' ->
  exists rows,
    expense db' = expense db ++ rows
    /\ map userId rows = map (fun r : User * Dict => id r.1) requests
    /\ engine_fault db' = engine_fault db.
Proof.
  induction requests as [|[u body] rest IH]; intros db db'; simpl.
  - intros [= <-]. exists []. now rewrite app_nil_r.
  - destruct (Main.add_expense schema body u db) as [[ack|e] db1] eqn:E;
      [|discriminate].
    intros H. apply IH in H as (rows & Hrows & Hids & Hf).
    apply add_expense_returned in E as (r & Hr & Hown & _ & _ & _ & Hf1).
    exists (r :: rows). rewrite Hrows, Hr, <- app_assoc. simpl.
    repeat split; congruence.
Qed.

Lemma length_filter_owner uid (rows : list Row) :
  forall requests : list (User * Dict),
  map userId rows = map (fun r : User * Dict => id r.1) requests ->
  length (filter (fun r => userId r = uid) rows)
  = length (filter (fun r : User * Dict => id r.1 = uid) requests).
Proof.
  induction rows as [|r rows IH]; intros [|q requests]; simpl;
    try discriminate; [reflexivity|].
  intros [= Hq Hrest]. rewrite !filter_cons. rewrite Hq.
  destruct (decide (id q.1 = uid)); simpl; rewrite (IH _ Hrest); reflexivity.
Qed.

End MainFacts.

Lemma list_handler_returned m (u : Prisma.User) db rows db' :
  St.try_except (Prisma.find_many m (Prisma.id u))
    (fun e => St.raise (HTTPException 500 (str_of_exn e))) db
  = (Return rows, db') ->
  db' = db
  /\ rows = filter (fun r => Prisma.userId r = Prisma.id u) (Prisma.table m db).
Proof.
  unfold St.try_except, Prisma.find_many, Prisma.query, St.raise.
  destruct (Prisma.engine_fault db); [discriminate|].
  now intros [= <- <-].
Qed.

(** C1. Per-user isolation.  A list route answers with exactly the rows
    whose owner is the user the gate resolved from the token, and a
    reachable store always answers so.  A creator route that acknowledges
    has appended one row, owned by the resolved user whatever the body
    says, and left the other tables alone.  Hence, from an empty table,
    after acknowledged requests of two distinct users A and B in any order,
    the expenses listed for A are as many as A's requests, all owned by A
    and none by B, and likewise for B. *)
Theorem per_user_isolation (lib : Jose.Library) (cfg : Auth.Config)
    (schema : Prisma.Schema) (dt : Main.Datetime) :
  (forall m (handler : Prisma.User -> St.ST Prisma.DB (list Prisma.Row)),
      (m, handler) = (Prisma.Expense, Main.get_expenses)
      \/ (m, handler) = (Prisma.SavingsJar, Main.get_savings_jars)
      \/ (m, handler) = (Prisma.Reminder, Main.get_reminders) ->
      (forall u db,
          Prisma.engine_fault db = None ->
          handler u db
          = (Return (filter (fun r => Prisma.userId r = Prisma.id u)
                       (Prisma.table m db)), db))
      /\ (forall token now db rows db',
             Main.authenticated lib cfg handler token now db = (Return rows, db') ->
             exists u,
               Main.get_current_user lib cfg token now db = (Return u, db)
               /\ db' = db
               /\ rows = filter (fun r => Prisma.userId r = Prisma.id u)
                           (Prisma.table m db)
               /\ Forall (fun r => Prisma.userId r = Prisma.id u) rows))
  /\ (forall m (creator : Dict -> Prisma.User -> St.ST Prisma.DB Dict),
         (m, creator) = (Prisma.Expense, Main.add_expense schema)
         \/ (m, creator) = (Prisma.SavingsJar, Main.add_savings_jar schema)
         \/ (m, creator) = (Prisma.Reminder, Main.add_reminder schema dt) ->
         forall token now body db ack db',
           Main.authenticated lib cfg (creator body) token now db
           = (Return ack, db') ->
           exists u r,
             Main.get_current_user lib cfg token now db = (Return u, db)
             /\ Prisma.table m db' = Prisma.table m db ++ [r]
             /\ Prisma.userId r = Prisma.id u
             /\ (forall m', m' <> m -> Prisma.table m' db' = Prisma.table m' db)
             /\ Prisma.user db' = Prisma.user db)
  /\ (forall (A B : Prisma.User) (requests : list (Prisma.User * Dict)) db db',
         Prisma.id A <> Prisma.id B ->
         Forall (fun r => r.1 = A \/ r.1 = B) requests ->
         Prisma.engine_fault db = None ->
         Prisma.expense db = [] ->
         Main.add_expenses schema requests db = Some db' ->
         exists rowsA rowsB,
           Main.get_expenses A db' = (Return rowsA, db')
           /\ Main.get_expenses B db' = (Return rowsB, db')
           /\ length rowsA
              = length (filter (fun r : Prisma.User * Dict =>
                                  Prisma.id r.1 = Prisma.id A) requests)
           /\ length rowsB
              = length (filter (fun r : Prisma.User * Dict =>
                                  Prisma.id r.1 = Prisma.id B) requests)
           /\ (length rowsA + length rowsB)%nat = length requests
           /\ Forall (fun r => Prisma.userId r = Prisma.id A
                               /\ Prisma.userId r <> Prisma.id B) rowsA
           /\ Forall (fun r => Prisma.userId r = Prisma.id B
                               /\ Prisma.userId r <> Prisma.id A) rowsB).
Proof.
  split; [|split].
  - intros m handler Hm. split.
    + intros u db Hf.
      destruct Hm as [[= -> ->]|[[= -> ->]|[= -> ->]]];
        apply (list_handler_answer _ u db Hf).
    + intros token now db rows db' H.
      apply authenticated_returned in H as (u & Hu & H).
      exists u. split; [exact Hu|].
      assert (db' = db
              /\ rows = filter (fun r => Prisma.userId r = Prisma.id u)
                          (Prisma.table m db)) as [-> ->].
      { destruct Hm as [[= -> ->]|[[= -> ->]|[= -> ->]]];
          now apply list_handler_returned in H. }
      repeat split. apply Forall_forall. intros r Hr.
      now apply list_elem_of_filter in Hr as [Hr _].
  - intros m creator Hm token now body db ack db' H.
    apply authenticated_returned in H as (u & Hu & H).
    exists u.
    destruct Hm as [[= -> ->]|[[= -> ->]|[= -> ->]]].
    + apply add_expense_returned in H as (r & Ht & Ho & Hj & Hr & Hus & _).
      exists r. repeat split; auto. intros []; simpl; congruence.
    + apply add_savings_jar_returned in H as (r & Ht & Ho & He & Hr & Hus & _).
      exists r. repeat split; auto. intros []; simpl; congruence.
    + apply add_reminder_returned in H as (r & Ht & Ho & He & Hj & Hus & _).
      exists r. repeat split; auto. intros []; simpl; congruence.
  - intros A B requests db db' Hne Hby Hf Hempty Hrun.
    apply add_expenses_rows in Hrun as (rows & Hrows & Hids & Hf').
    rewrite Hempty in Hrows; simpl in Hrows. rewrite Hf in Hf'.
    exists (filter (fun r => Prisma.userId r = Prisma.id A) rows),
           (filter (fun r => Prisma.userId r = Prisma.id B) rows).
    pose proof (list_handler_answer Prisma.Expense A db' Hf') as HA.
    pose proof (list_handler_answer Prisma.Expense B db' Hf') as HB.
    simpl in HA, HB. rewrite Hrows in HA, HB.
    split; [exact HA|]. split; [exact HB|].
    rewrite (length_filter_owner _ rows requests Hids).
    rewrite (length_filter_owner _ rows requests Hids).
    split; [reflexivity|]. split; [reflexivity|]. split.
    + clear -Hne Hby. induction Hby as [|q requests Hq _ IH]; [reflexivity|].
      rewrite !filter_cons.
      destruct Hq as [-> | ->];
        repeat (destruct (decide _); simpl); try congruence; simpl in *; lia.
    + split; apply Forall_forall; intros r Hr;
        apply list_elem_of_filter in Hr as [Hr _]; split; congruence.
Qed.

(** C1 on the sample database: mia posts a lunch whose body names bob as
    its owner, bob posts a rent, mia posts a rent. *)
Lemma per_user_isolation_witness :
  (exists db' rowsA rowsB,
      Main.add_expenses Sample.schema Sample.requests Sample.db = Some db'
      /\ Main.get_expenses Sample.mia db' = (Return rowsA, db')
      /\ Main.get_expenses Sample.bob db' = (Return rowsB, db')
      /\ length rowsA = 2%nat /\ length rowsB = 1%nat
      /\ Forall (fun r => Prisma.userId r = 7 /\ Prisma.userId r <> 8) rowsA)
  /\ (exists ack db' r,
         Main.authenticated Sample.lib Sample.cfg
           (Main.add_expense Sample.schema Sample.lunch) "t7" 1000 Sample.db
         = (Return ack, db')
         /\ Prisma.expense db' = [r] /\ Prisma.userId r = 7)
  /\ Main.get_expenses Sample.mia Sample.db = (Return [], Sample.db).
Proof.
  destruct (per_user_isolation Sample.lib Sample.cfg Sample.schema Sample.dt)
    as (Hlist & Hcreate & Hscenario).
  split; [|split].
  - destruct (Main.add_expenses Sample.schema Sample.requests Sample.db)
      as [db'|] eqn:Hrun; [|vm_compute in Hrun; discriminate].
    destruct (Hscenario Sample.mia Sample.bob Sample.requests Sample.db db')
      as (rowsA & rowsB & HA & HB & HnA & HnB & _ & HownA & _);
      [discriminate
      | repeat (apply List.Forall_cons;
                [(left; reflexivity) || (right; reflexivity)|]);
        apply List.Forall_nil
      | reflexivity | reflexivity | exact Hrun |].
    exists db', rowsA, rowsB. repeat split; assumption.
  - destruct (Main.authenticated Sample.lib Sample.cfg
                (Main.add_expense Sample.schema Sample.lunch) "t7" 1000
                Sample.db) as [[ack|e] db'] eqn:Hpost;
      [|vm_compute in Hpost; discriminate].
    destruct (Hcreate Prisma.Expense (Main.add_expense Sample.schema)
                (or_introl eq_refl) "t7" 1000 Sample.lunch Sample.db ack db'
                Hpost) as (u & r & Hu & Ht & Ho & _).
    vm_compute in Hu. injection Hu as <-.
    exists ack, db', r. repeat split; assumption.
  - apply (Hlist Prisma.Expense Main.get_expenses (or_introl eq_refl)).
    reflexivity.
Defined.

(** C4. The gate: an invalid token is rejected with 401 "Invalid token";
    a valid claim is looked up by its embedded identifier, and, the store
    answering, the request is rejected with 401 "User not found" when no
    user has that identifier and resolves to a user with that identifier
    otherwise.  The gate changes nothing in the database. *)
Theorem get_current_user_resolves (lib : Jose.Library) (cfg : Auth.Config)
    (token : string) (now : Z) (db : Prisma.DB) :
  let result := (Main.get_current_user lib cfg token now db).1 in
  (Auth.decode_token lib cfg token now = Return None ->
   result = Raise (HTTPException 401 "Invalid token"))
  /\ (forall payload uid,
         Auth.decode_token lib cfg token now = Return (Some payload) ->
         dict_get "user_id" payload = Some (VInt uid) ->
         Prisma.engine_fault db = None ->
         ((forall u, In u (Prisma.user db) -> Prisma.id u <> uid) ->
          result = Raise (HTTPException 401 "User not found"))
         /\ ((exists u, In u (Prisma.user db) /\ Prisma.id u = uid) ->
             exists u, result = Return u
                       /\ In u (Prisma.user db) /\ Prisma.id u = uid))
  /\ (Main.get_current_user lib cfg token now db).2 = db.
Proof.
  intros result. split; [|split].
  - intros Hd. subst result. unfold Main.get_current_user, St.bind, St.lift.
    now rewrite Hd.
  - intros payload uid Hd Hid Hf.
    assert (Hrun : result
                   = match find (fun u => Prisma.id u =? uid) (Prisma.user db) with
                     | Some u => Return u
                     | None => Raise (HTTPException 401 "User not found")
                     end).
    { subst result. unfold Main.get_current_user, St.bind, St.lift.
      rewrite Hd. simpl. destruct payload as [|kv payload]; [discriminate|].
      simpl negb. cbv iota. unfold get. rewrite Hid.
      unfold Prisma.user_find_unique_id, Prisma.query. cbv beta iota.
      simpl. rewrite Hf. now destruct (find _ _). }
    split.
    + intros Hnone. rewrite Hrun.
      destruct (find _ _) as [u|] eqn:E; [|reflexivity].
      apply find_some in E as [Hin Heq]. apply Z.eqb_eq in Heq.
      now destruct (Hnone u Hin).
    + intros (u & Hin & Heq). rewrite Hrun.
      destruct (find _ _) as [u'|] eqn:E.
      * apply find_some in E as [Hin' Heq']. apply Z.eqb_eq in Heq'. eauto.
      * apply (find_none _ _ E) in Hin. apply Z.eqb_neq in Hin. contradiction.
  - apply get_current_user_state.
Qed.

(** C4 on the sample database: a string that is no token, a token for
    the unknown user 9, and mia's token. *)
Lemma get_current_user_resolves_witness :
  (Main.get_current_user Sample.lib Sample.cfg "garbage" 1000 Sample.db).1
  = Raise (HTTPException 401 "Invalid token")
  /\ (Main.get_current_user Sample.lib Sample.cfg "t9" 1000 Sample.db).1
     = Raise (HTTPException 401 "User not found")
  /\ exists u,
       (Main.get_current_user Sample.lib Sample.cfg "t7" 1000 Sample.db).1
       = Return u /\ Prisma.id u = 7.
Proof.
  split; [|split].
  - apply (get_current_user_resolves Sample.lib Sample.cfg "garbage" 1000
             Sample.db). reflexivity.
  - apply (proj1 (proj2 (get_current_user_resolves Sample.lib Sample.cfg "t9"
             1000 Sample.db)) [("user_id", VInt 9); ("exp", VInt 2800)] 9);
      try reflexivity.
    intros u [<-|[<-|[]]]; discriminate.
  - destruct (proj1 (proj2 (get_current_user_resolves Sample.lib Sample.cfg
                "t7" 1000 Sample.db))
                [("user_id", VInt 7); ("exp", VInt 2800)] 7)
      as [_ Hfound]; try reflexivity.
    destruct Hfound as (u & Hu & _ & Hid).
    + exists Sample.mia. split; [now left|reflexivity].
    + exists u. split; assumption.
Defined.

(** Where a failed login does not tell its cause: an attempt under a name
    no user has and an attempt under a registered name with a password
    that [verify_password] answers [False] for both end in the same 401
    "Invalid credentials", and leave the database as it was.  An attempt
    on which [verify_password] raises instead of answering is another
    matter, taken up below. *)
Lemma login_rejection_uniform (lib : Jose.Library) (cfg : Auth.Config)
    (bc : Auth.Bcrypt) (db : Prisma.DB)
    (body1 body2 : Dict) (now1 now2 : Z) (name1 name2 : string) :
  Prisma.engine_fault db = None ->
  get "username" body1 = VStr name1 -> name1 <> "" ->
  truthy (get "password" body1) = true ->
  (forall u, In u (Prisma.user db) -> Prisma.username u <> name1) ->
  get "username" body2 = VStr name2 -> name2 <> "" ->
  truthy (get "password" body2) = true ->
  (exists u, In u (Prisma.user db) /\ Prisma.username u = name2) ->
  (forall u, In u (Prisma.user db) -> Prisma.username u = name2 ->
             Auth.verify_password bc (get "password" body2)
               (Prisma.password u) = Return false) ->
  Main.login lib cfg bc body1 now1 db
  = (Raise (HTTPException 401 "Invalid credentials"), db)
  /\ Main.login lib cfg bc body2 now2 db
     = (Raise (HTTPException 401 "Invalid credentials"), db)
  /\ Main.login lib cfg bc body1 now1 db
     = Main.login lib cfg bc body2 now2 db.
Proof.
  intros Hf Hn1 Hne1 Hp1 Hnone Hn2 Hne2 Hp2 (u0 & Hin0 & Hname0) Hrej.
  assert (H1 : Main.login lib cfg bc body1 now1 db
               = (Raise (HTTPException 401 "Invalid credentials"), db)).
  { assert (Ht : truthy (VStr name1) = true)
      by (apply String.eqb_neq in Hne1; simpl; now rewrite Hne1).
    unfold Main.login. cbv zeta. rewrite Hn1, Hp1, Ht. simpl.
    unfold St.bind, Prisma.query. rewrite Hf.
    destruct (find _ _) as [u|] eqn:E; [|reflexivity].
    apply find_some in E as [Hin Heq]. apply String.eqb_eq in Heq.
    now destruct (Hnone u Hin). }
  assert (H2 : Main.login lib cfg bc body2 now2 db
               = (Raise (HTTPException 401 "Invalid credentials"), db)).
  { assert (Ht : truthy (VStr name2) = true)
      by (apply String.eqb_neq in Hne2; simpl; now rewrite Hne2).
    unfold Main.login. cbv zeta. rewrite Hn2, Hp2, Ht. simpl.
    unfold St.bind, Prisma.query. rewrite Hf.
    destruct (find _ _) as [u|] eqn:E.
    - apply find_some in E as [Hin Heq]. apply String.eqb_eq in Heq.
      unfold St.lift. now rewrite (Hrej u Hin Heq).
    - apply (find_none _ _ E) in Hin0. apply String.eqb_neq in Hin0.
      contradiction. }
  split; [exact H1|]. split; [exact H2|]. now rewrite H1, H2.
Qed.

(** On the sample database: eve, whom nobody registered, and mia with a
    wrong password. *)
Lemma login_rejection_uniform_witness :
  Main.login Sample.lib Sample.cfg Sample.bcrypt
    [("username", VStr "eve"); ("password", VStr "pw123")] 1000 Sample.db
  = Main.login Sample.lib Sample.cfg Sample.bcrypt
      [("username", VStr "mia"); ("password", VStr "letmein")] 1000 Sample.db.
Proof.
  apply (login_rejection_uniform Sample.lib Sample.cfg Sample.bcrypt Sample.db
           [("username", VStr "eve"); ("password", VStr "pw123")]
           [("username", VStr "mia"); ("password", VStr "letmein")]
           1000 1000 "eve" "mia");
    try reflexivity; try discriminate.
  - intros u [<-|[<-|[]]]; discriminate.
  - exists Sample.mia. split; [now left|reflexivity].
  - intros u [<-|[<-|[]]]; [reflexivity|discriminate].
Defined.

(** C9, where the code departs from it.  [login] has one rejection for
    the two causes the claim names, but it verifies the password only when
    the username is registered, and it calls [verify_password] outside any
    [try].  When that call raises for the password sent (a password that
    is not a string, or a string that the codec or bcrypt refuses), the
    attempt under a registered name ends in the unhandled error, a 500,
    while the attempt with the same password under a name nobody has is
    answered with 401 "Invalid credentials".  The two failed attempts are
    answered differently: the answer tells whether the name is
    registered. *)
Theorem login_failure_reveals_user (lib : Jose.Library) (cfg : Auth.Config)
    (bc : Auth.Bcrypt) (db : Prisma.DB) (body1 body2 : Dict) (now1 now2 : Z)
    (name1 name2 : string) (cls : ErrorClass) (text : string) :
  Prisma.engine_fault db = None ->
  get "username" body1 = VStr name1 -> name1 <> "" ->
  get "username" body2 = VStr name2 -> name2 <> "" ->
  get "password" body2 = get "password" body1 ->
  truthy (get "password" body1) = true ->
  (forall u, In u (Prisma.user db) -> Prisma.username u <> name1) ->
  (exists u, In u (Prisma.user db) /\ Prisma.username u = name2) ->
  (forall u, In u (Prisma.user db) -> Prisma.username u = name2 ->
             Auth.verify_password bc (get "password" body1) (Prisma.password u)
             = Raise (PyError cls text)) ->
  Main.login lib cfg bc body1 now1 db
  = (Raise (HTTPException 401 "Invalid credentials"), db)
  /\ Main.login lib cfg bc body2 now2 db = (Raise (PyError cls text), db)
  /\ Main.login lib cfg bc body1 now1 db <> Main.login lib cfg bc body2 now2 db.
Proof.
  intros Hf Hn1 Hne1 Hn2 Hne2 Hsame Hp Hnone (u0 & Hin0 & Hname0) Hraise.
  assert (H1 : Main.login lib cfg bc body1 now1 db
               = (Raise (HTTPException 401 "Invalid credentials"), db)).
  { assert (Ht : truthy (VStr name1) = true)
      by (apply String.eqb_neq in Hne1; simpl; now rewrite Hne1).
    unfold Main.login. cbv zeta. rewrite Hn1, Hp, Ht. simpl.
    unfold St.bind, Prisma.query. rewrite Hf.
    destruct (find _ _) as [u|] eqn:E; [|reflexivity].
    apply find_some in E as [Hin Heq]. apply String.eqb_eq in Heq.
    now destruct (Hnone u Hin). }
  assert (H2 : Main.login lib cfg bc body2 now2 db
               = (Raise (PyError cls text), db)).
  { assert (Ht : truthy (VStr name2) = true)
      by (apply String.eqb_neq in Hne2; simpl; now rewrite Hne2).
    unfold Main.login. cbv zeta. rewrite Hn2, Hsame, Hp, Ht. simpl.
    unfold St.bind, Prisma.query. rewrite Hf.
    destruct (find _ _) as [u|] eqn:E.
    - apply find_some in E as [Hin Heq]. apply String.eqb_eq in Heq.
      unfold St.lift. now rewrite (Hraise u Hin Heq).
    - apply (find_none _ _ E) in Hin0. apply String.eqb_neq in Hin0.
      contradiction. }
  split; [exact H1|]. split; [exact H2|]. rewrite H1, H2. discriminate.
Qed.

(** C9 on the sample database, under a bcrypt that refuses more than 72
    bytes: the password 123 and a password of 73 bytes, each sent under
    the name of eve, whom nobody registered, and under the name of mia. *)
Lemma login_failure_reveals_user_witness :
  (Main.login Sample.lib Sample.cfg Sample.bcrypt
     [("username", VStr "eve"); ("password", VInt 123)] 1000 Sample.db
   = (Raise (HTTPException 401 "Invalid credentials"), Sample.db)
   /\ Main.login Sample.lib Sample.cfg Sample.bcrypt
        [("username", VStr "mia"); ("password", VInt 123)] 1000 Sample.db
      = (Raise (PyError AttributeError "object has no attribute 'encode'"),
         Sample.db))
  /\ (Main.login Sample.lib Sample.cfg Sample.bcrypt
        [("username", VStr "eve"); ("password", VStr Sample.long_password)]
        1000 Sample.db
      = (Raise (HTTPException 401 "Invalid credentials"), Sample.db)
      /\ Main.login Sample.lib Sample.cfg Sample.bcrypt
           [("username", VStr "mia"); ("password", VStr Sample.long_password)]
           1000 Sample.db
         = (Raise Sample.refusal, Sample.db)).
Proof.
  split.
  - destruct (login_failure_reveals_user Sample.lib Sample.cfg Sample.bcrypt
                Sample.db
                [("username", VStr "eve"); ("password", VInt 123)]
                [("username", VStr "mia"); ("password", VInt 123)]
                1000 1000 "eve" "mia" AttributeError
                "object has no attribute 'encode'") as (H1 & H2 & _);
      try reflexivity; try discriminate;
      try (intros u [<-|[<-|[]]]; discriminate);
      try (exists Sample.mia; split; [now left|reflexivity]).
    split; assumption.
  - destruct (login_failure_reveals_user Sample.lib Sample.cfg Sample.bcrypt
                Sample.db
                [("username", VStr "eve"); ("password", VStr Sample.long_password)]
                [("username", VStr "mia"); ("password", VStr Sample.long_password)]
                1000 1000 "eve" "mia" ValueError
                "password cannot be longer than 72 bytes") as (H1 & H2 & _);
      try reflexivity; try discriminate;
      try (intros u [<-|[<-|[]]]; discriminate);
      try (exists Sample.mia; split; [now left|reflexivity]).
    split; assumption.
Defined.

(** With her own password mia gets the token of user 7. *)
Example login_accepts_mia :
  Main.login Sample.lib Sample.cfg Sample.bcrypt
    [("username", VStr "mia"); ("password", VStr "pw123")] 1000 Sample.db
  = (Return [("access_token", VStr "t7"); ("token_type", VStr "bearer")],
     Sample.db).
Proof. vm_compute. reflexivity. Qed.

(** A due date that is a string but no ISO date is answered with 400
    "Invalid date format", and nothing is stored. *)
Lemma add_reminder_malformed_date (schema : Prisma.Schema) (dt : Main.Datetime)
    (body : Dict) (u : Prisma.User) (db : Prisma.DB) (s : string) :
  get "due_date" body = VStr s ->
  Main.fromisoformat dt (s +:+ "T00:00:00") = None ->
  Main.add_reminder schema dt body u db
  = (Raise (HTTPException 400 "Invalid date format"), db).
Proof.
  intros Hs Hbad. unfold Main.add_reminder. cbv zeta. rewrite Hs. simpl.
  rewrite Hbad. reflexivity.
Qed.

(** C6, where the code departs from it.  A reminder whose body has no
    due date, or one that is not a string, is not answered with the 400
    that a malformed date gets: [None + "T00:00:00"] raises [TypeError],
    which [except ValueError] lets through, so the handler ends in an
    unhandled error.  Nothing is stored. *)
Theorem add_reminder_absent_due_date (schema : Prisma.Schema)
    (dt : Main.Datetime) (body : Dict) (u : Prisma.User) (db : Prisma.DB) :
  (forall s, get "due_date" body <> VStr s) ->
  Main.add_reminder schema dt body u db
  = (Raise (PyError TypeError "unsupported operand type(s) for +"), db)
  /\ forall detail,
       (Main.add_reminder schema dt body u db).1
       <> Raise (HTTPException 400 detail).
Proof.
  intros Hnostr.
  assert (H : Main.add_reminder schema dt body u db
              = (Raise (PyError TypeError "unsupported operand type(s) for +"), db)).
  { unfold Main.add_reminder. cbv zeta.
    destruct (get "due_date" body) as [| | | |s| | |] eqn:E;
      try reflexivity.
    now destruct (Hnostr s). }
  split; [exact H|]. intros detail. rewrite H. discriminate.
Qed.

(** The reminder sent without a due date, by mia on the sample
    database. *)
Lemma add_reminder_absent_due_date_witness :
  dict_get "due_date" Sample.reminder_without_date = None
  /\ Main.add_reminder Sample.schema Sample.dt Sample.reminder_without_date
       Sample.mia Sample.db
     = (Raise (PyError TypeError "unsupported operand type(s) for +"),
        Sample.db).
Proof.
  split; [reflexivity|].
  apply (add_reminder_absent_due_date Sample.schema Sample.dt
           Sample.reminder_without_date Sample.mia Sample.db).
  intros s H. vm_compute in H. discriminate.
Defined.

(** The same reminder with a date the calendar knows is stored for mia. *)
Example add_reminder_accepts_date :
  exists r,
    Main.add_reminder Sample.schema Sample.dt
      (("due_date", VStr "2025-01-31") :: Sample.reminder_without_date)
      Sample.mia Sample.db
    = (Return [("message", VStr "Reminder added successfully");
               ("reminder_id", VInt 1);
               ("due_date", VStr "2025-01-31T00:00:00")],
       Prisma.set_table Prisma.Reminder [r] Sample.db)
    /\ Prisma.userId r = 7.
Proof. eexists. split; [vm_compute; reflexivity|reflexivity]. Qed.

(** The creators hand the body's fields to the store as they come: with
    a schema that asks for nothing, an empty body is stored as a row. *)
Example add_expense_stores_empty_body :
  exists ack db',
    Main.add_expense Sample.schema [] Sample.mia Sample.db = (Return ack, db')
    /\ length (Prisma.expense db') = 1%nat.
Proof. eexists _, _. split; [vm_compute; reflexivity|reflexivity]. Qed.

(** ** [ai_assistant.py]: context assembly and the call to the model *)

Section AssistantFacts.

Import Assistant.

Context (srv : Services) (OPENAI_API_KEY : option string).

Lemma fetch_run path headers (t : list Event) :
  fetch srv path headers t
  = (fetched srv path headers, t ++ [Requested (BASE_URL +:+ path) headers]).
Proof.
  unfold fetch, fetched, get, St.bind, St.lift.
  destruct (requests_get srv (BASE_URL +:+ path) headers) as [resp|e];
    [|reflexivity].
  simpl. now destruct (raise_for_status resp).
Qed.

Lemma get_user_data_success access_token (t : list Event) e j r :
  fetched srv "/get_expenses" (bearer access_token) = Return e ->
  fetched srv "/get_savings_jars" (bearer access_token) = Return j ->
  fetched srv "/get_reminders" (bearer access_token) = Return r ->
  get_user_data srv access_token t
  = (Return (Some [("expenses", e); ("savings_jars", j); ("reminders", r)]),
     t ++ [Requested (BASE_URL +:+ "/get_expenses") (bearer access_token);
           Requested (BASE_URL +:+ "/get_savings_jars") (bearer access_token);
           Requested (BASE_URL +:+ "/get_reminders") (bearer access_token)]).
Proof.
  intros He Hj Hr. unfold get_user_data, St.try_except, St.bind. cbv zeta.
  fold (bearer access_token).
  rewrite fetch_run, He. cbv iota beta.
  rewrite fetch_run, Hj. cbv iota beta.
  rewrite fetch_run, Hr. cbv iota beta.
  unfold St.ret. now rewrite <- !app_assoc.
Qed.

(** When a fetch fails the assembler answers [None]; what it did up to
    there is a number of fetches and one printed line. *)
Lemma get_user_data_failure access_token (t : list Event) :
  (exists x, fetched srv "/get_expenses" (bearer access_token) = Raise x)
  \/ (exists x, fetched srv "/get_savings_jars" (bearer access_token) = Raise x)
  \/ (exists x, fetched srv "/get_reminders" (bearer access_token) = Raise x) ->
  exists events,
    get_user_data srv access_token t = (Return None, t ++ events)
    /\ Forall (fun ev => ~ is_submission ev) events.
Proof.
  intros Hfail. unfold get_user_data, St.try_except, St.bind. cbv zeta.
  fold (bearer access_token).
  rewrite fetch_run.
  destruct (fetched srv "/get_expenses" (bearer access_token)) as [e|x] eqn:He;
    cbv iota beta; [rewrite fetch_run|].
  1: destruct (fetched srv "/get_savings_jars" (bearer access_token))
       as [j|x] eqn:Hj; cbv iota beta; [rewrite fetch_run|].
  1: destruct (fetched srv "/get_reminders" (bearer access_token))
       as [r|x] eqn:Hr; cbv iota beta.
  1: destruct Hfail as [[x H]|[[x H]|[x H]]]; discriminate.
  all: destruct (is_class RequestException x);
    unfold print, St.ret; cbv beta iota;
    eexists; (split; [rewrite <- !app_assoc; reflexivity|]);
    simpl; repeat (apply List.Forall_cons; [simpl; tauto|]);
    apply List.Forall_nil.
Qed.

End AssistantFacts.

Section AssistantClaims.

Import Assistant.

Context (srv : Services) (OPENAI_API_KEY : option string).

Lemma append_assoc (a b c : string) : (a +:+ b) +:+ c = a +:+ (b +:+ c).
Proof.
  induction a as [|x a IH]; [reflexivity|].
  change (String x ((a +:+ b) +:+ c) = String x (a +:+ (b +:+ c))).
  now rewrite IH.
Qed.

(** The block the code builds is the headed block. *)
Lemma build_context_block e j r :
  build_context srv [("expenses", e); ("savings_jars", j); ("reminders", r)]
  = Return (context_block srv e j r).
Proof.
  set (d := [("expenses", e); ("savings_jars", j); ("reminders", r)]).
  assert (He : dict_get "expenses" d = Some e) by reflexivity.
  assert (Hj : dict_get "savings_jars" d = Some j) by reflexivity.
  assert (Hr : dict_get "reminders" d = Some r) by reflexivity.
  unfold build_context, context_block, getitem, Py.bind.
  rewrite He, Hj, Hr. cbv beta iota zeta.
  f_equal. now rewrite !append_assoc.
Qed.


(** A client holds the key that was set. *)
Lemma OpenAI_returned client :
  OpenAI srv OPENAI_API_KEY = Return client ->
  OPENAI_API_KEY = Some (api_key client)
  /\ api_key_accepted srv (api_key client) = true.
Proof.
  unfold OpenAI. destruct OPENAI_API_KEY as [k|]; [|discriminate].
  destruct (api_key_accepted srv k) eqn:E; [|discriminate].
  now intros [= <-].
Qed.

(** A run with a client whose three fetches succeed: the context is built
    and sent, and the answer is the first choice, or the text made from
    the fault. *)
Lemma generate_ai_response_success user_prompt access_token (t : list Event)
    client e j r :
  OpenAI srv OPENAI_API_KEY = Return client ->
  fetched srv "/get_expenses" (bearer access_token) = Return e ->
  fetched srv "/get_savings_jars" (bearer access_token) = Return j ->
  fetched srv "/get_reminders" (bearer access_token) = Return r ->
  generate_ai_response srv OPENAI_API_KEY user_prompt access_token t
  = (match
       chat_completions_create srv (api_key client) "gpt-4o"
         [("system", "You are a helpful personal finance assistant.");
          ("user", context_block srv e j r +:+ "User Query: " +:+ user_prompt)]
     with
     | Return (c :: _) => Return c
     | Return [] =>
         Return (Some ("An error occurred: " +:+ "list index out of range"))
     | Raise x => Return (Some ("An error occurred: " +:+ str_of_exn x))
     end,
     t ++ [Requested (BASE_URL +:+ "/get_expenses") (bearer access_token);
           Requested (BASE_URL +:+ "/get_savings_jars") (bearer access_token);
           Requested (BASE_URL +:+ "/get_reminders") (bearer access_token);
           submission (context_block srv e j r) user_prompt]).
Proof.
  intros Hc He Hj Hr. unfold generate_ai_response.
  rewrite (bind_return _ _ t client t); [|unfold St.lift; now rewrite Hc].
  rewrite (bind_return _ _ _ _ _ (get_user_data_success srv access_token t e j r He Hj Hr)).
  set (d := [("expenses", e); ("savings_jars", j); ("reminders", r)]).
  change (negb (truthy (dict_or_none (Some d)))) with false.
  change (default [] (Some d)) with d. subst d.
  cbv iota. unfold St.bind at 1, St.lift. rewrite build_context_block.
  unfold St.try_except, St.bind, create, St.lift, St.ret, submission.
  rewrite <- !app_assoc. simpl app.
  destruct (chat_completions_create srv (api_key client) _ _) as [[|c cs]|x];
    reflexivity.
Qed.

(** A run with a client in which a fetch fails: the fallback sentence,
    and nothing sent to the model. *)
Lemma generate_ai_response_failure user_prompt access_token (t : list Event)
    client :
  OpenAI srv OPENAI_API_KEY = Return client ->
  (exists x, fetched srv "/get_expenses" (bearer access_token) = Raise x)
  \/ (exists x, fetched srv "/get_savings_jars" (bearer access_token) = Raise x)
  \/ (exists x, fetched srv "/get_reminders" (bearer access_token) = Raise x) ->
  exists events,
    get_user_data srv access_token t = (Return None, t ++ events)
    /\ generate_ai_response srv OPENAI_API_KEY user_prompt access_token t
       = (Return (Some "Sorry, I couldn't retrieve your data."), t ++ events)
    /\ Forall (fun ev => ~ is_submission ev) events.
Proof.
  intros Hc Hfail.
  destruct (get_user_data_failure srv access_token t Hfail)
    as (events & Hdata & Hquiet).
  exists events. split; [exact Hdata|]. split; [|exact Hquiet].
  unfold generate_ai_response.
  rewrite (bind_return _ _ t client t); [|unfold St.lift; now rewrite Hc].
  now rewrite (bind_return _ _ _ _ _ Hdata).
Qed.

End AssistantClaims.

(** C2. All or nothing.  A fetch is made only by a run that has built its
    client, which is the first thing [generate_ai_response] does.  In such
    a run, when any one of the three fetches fails, the assembler answers
    [None], never a context made of the categories that did arrive, and
    [generate_ai_response] returns the fallback sentence without raising
    and without sending anything to the model. *)
Theorem context_assembly_all_or_nothing (srv : Assistant.Services)
    (OPENAI_API_KEY : option string) (user_prompt access_token : string)
    (t : list Assistant.Event) (client : Assistant.Client) :
  Assistant.OpenAI srv OPENAI_API_KEY = Return client ->
  (exists x, Assistant.fetched srv "/get_expenses"
               (Assistant.bearer access_token) = Raise x)
  \/ (exists x, Assistant.fetched srv "/get_savings_jars"
                  (Assistant.bearer access_token) = Raise x)
  \/ (exists x, Assistant.fetched srv "/get_reminders"
                  (Assistant.bearer access_token) = Raise x) ->
  exists events,
    Assistant.get_user_data srv access_token t = (Return None, t ++ events)
    /\ Assistant.generate_ai_response srv OPENAI_API_KEY user_prompt
         access_token t
       = (Return (Some "Sorry, I couldn't retrieve your data."), t ++ events)
    /\ Forall (fun ev => ~ Assistant.is_submission ev) events.
Proof.
  apply generate_ai_response_failure.
Qed.

(** C2 in the world whose reminders route answers 500 while the other
    two answer. *)
Lemma context_assembly_all_or_nothing_witness :
  (Assistant.generate_ai_response Sample.srv_reminders_down (Some "sk-test")
     "How much did I spend?" "t7" []).1
  = Return (Some "Sorry, I couldn't retrieve your data.")
  /\ Assistant.fetched Sample.srv_reminders_down "/get_expenses"
       (Assistant.bearer "t7") = Return (VList []).
Proof.
  destruct (context_assembly_all_or_nothing Sample.srv_reminders_down
              (Some "sk-test") "How much did I spend?" "t7" []
              {| Assistant.api_key := "sk-test" |})
    as (events & _ & Hrun & _).
  - reflexivity.
  - right. right. eexists. reflexivity.
  - split; [now rewrite Hrun|reflexivity].
Defined.

(** A run that has no key, or one the SDK does not take, makes no fetch
    at all: the constructor of the client raises, and that error leaves
    the function. *)
Example no_key_no_fetch :
  Assistant.generate_ai_response Sample.srv_reminders_down None
    "How much did I spend?" "t7" []
  = (Raise (PyError OpenAIError "The api_key client option must be set"), [])
  /\ Assistant.generate_ai_response Sample.srv_reminders_down (Some "")
       "How much did I spend?" "t7" []
     = (Raise (PyError OpenAIError "The api_key client option must be set"),
        []).
Proof. split; reflexivity. Qed.

(** C7 as it is stated fails, in both of its parts: the text of the
    fault that the model call raised is part of what the caller gets back,
    and a run without a key raises past [generate_ai_response]. *)
Lemma assistant_echoes_error_text :
  let fault := PyError OpenAIError "quota exceeded for key sk-live-1234" in
  (forall key model messages,
      Assistant.chat_completions_create Sample.srv_quota key model messages
      = Raise fault)
  /\ (Assistant.generate_ai_response Sample.srv_quota (Some "sk-live-1234")
        "How much did I spend?" "t7" []).1
     = Return (Some "An error occurred: quota exceeded for key sk-live-1234")
  /\ Assistant.echoes (str_of_exn fault)
       "An error occurred: quota exceeded for key sk-live-1234"
  /\ (Assistant.generate_ai_response Sample.srv None
        "How much did I spend?" "t7" []).1
     = Raise (PyError OpenAIError "The api_key client option must be set").
Proof.
  split; [reflexivity|]. split; [vm_compute; reflexivity|].
  split; [|reflexivity].
  exists "An error occurred: ", "". reflexivity.
Qed.

(** C7, amended.  When the model call raises, [generate_ai_response]
    catches the fault and returns "An error occurred: " followed by the
    text of the fault: the fault does not leave the function, and its text
    does.  The call is made, once, by a run that built its client and
    fetched the three collections. *)
Theorem assistant_reports_model_failure (srv : Assistant.Services)
    (OPENAI_API_KEY : option string) (user_prompt access_token : string)
    (t : list Assistant.Event) (client : Assistant.Client) (e j r : Value)
    (x : Exception) :
  Assistant.OpenAI srv OPENAI_API_KEY = Return client ->
  Assistant.fetched srv "/get_expenses" (Assistant.bearer access_token)
  = Return e ->
  Assistant.fetched srv "/get_savings_jars" (Assistant.bearer access_token)
  = Return j ->
  Assistant.fetched srv "/get_reminders" (Assistant.bearer access_token)
  = Return r ->
  Assistant.chat_completions_create srv (Assistant.api_key client) "gpt-4o"
    [("system", "You are a helpful personal finance assistant.");
     ("user", Assistant.context_block srv e j r +:+ "User Query: "
              +:+ user_prompt)]
  = Raise x ->
  Assistant.generate_ai_response srv OPENAI_API_KEY user_prompt access_token t
  = (Return (Some ("An error occurred: " +:+ str_of_exn x)),
     t ++ [Assistant.Requested (Assistant.BASE_URL +:+ "/get_expenses")
             (Assistant.bearer access_token);
           Assistant.Requested (Assistant.BASE_URL +:+ "/get_savings_jars")
             (Assistant.bearer access_token);
           Assistant.Requested (Assistant.BASE_URL +:+ "/get_reminders")
             (Assistant.bearer access_token);
           Assistant.Submitted "gpt-4o"
             [("system", "You are a helpful personal finance assistant.");
              ("user",
               Assistant.context_block srv e j r +:+ "User Query: "
               +:+ user_prompt)]]).
Proof.
  intros Hc He Hj Hr Hx.
  rewrite (generate_ai_response_success srv OPENAI_API_KEY user_prompt
             access_token t client e j r Hc He Hj Hr).
  now rewrite Hx.
Qed.

(** C7, amended, in the world whose completion service refuses: the
    answer carries the text of the refusal. *)
Lemma assistant_reports_model_failure_witness :
  (Assistant.generate_ai_response Sample.srv_quota (Some "sk-live-1234")
     "How much did I spend?" "t7" []).1
  = Return (Some ("An error occurred: "
                  +:+ str_of_exn (PyError OpenAIError
                                    "quota exceeded for key sk-live-1234"))).
Proof.
  rewrite (assistant_reports_model_failure Sample.srv_quota
             (Some "sk-live-1234") "How much did I spend?" "t7" []
             {| Assistant.api_key := "sk-live-1234" |}
             (VList []) (VList []) (VList [])
             (PyError OpenAIError "quota exceeded for key sk-live-1234"));
    reflexivity.
Defined.

(** C8. The context block.  When the three fetches succeed the code
    builds one text: the three headed lines "Expenses:", "Savings Jars:"
    and "Reminders:" in this order, then the line that tells the model to
    use this information.  With three empty collections the block is still
    built, each heading followed by an empty list.  The request that a
    run with a client sends to the model is the system framing and one
    user message: the block, then "User Query: " and the query as the user
    wrote it. *)
Theorem context_block_shape (srv : Assistant.Services)
    (OPENAI_API_KEY : option string) (user_prompt access_token : string)
    (t : list Assistant.Event) (e j r : Value) :
  Assistant.fetched srv "/get_expenses" (Assistant.bearer access_token)
  = Return e ->
  Assistant.fetched srv "/get_savings_jars" (Assistant.bearer access_token)
  = Return j ->
  Assistant.fetched srv "/get_reminders" (Assistant.bearer access_token)
  = Return r ->
  Assistant.get_user_data srv access_token t
  = (Return (Some [("expenses", e); ("savings_jars", j); ("reminders", r)]),
     t ++ [Assistant.Requested (Assistant.BASE_URL +:+ "/get_expenses")
             (Assistant.bearer access_token);
           Assistant.Requested (Assistant.BASE_URL +:+ "/get_savings_jars")
             (Assistant.bearer access_token);
           Assistant.Requested (Assistant.BASE_URL +:+ "/get_reminders")
             (Assistant.bearer access_token)])
  /\ Assistant.build_context srv
       [("expenses", e); ("savings_jars", j); ("reminders", r)]
     = Return
         ("User Information: " +:+ Assistant.nl
          +:+ "Expenses: " +:+ Assistant.str srv e +:+ Assistant.nl
          +:+ "Savings Jars: " +:+ Assistant.str srv j +:+ Assistant.nl
          +:+ "Reminders: " +:+ Assistant.str srv r +:+ Assistant.nl
          +:+ "Please use this information to respond to the user's query."
          +:+ Assistant.nl)
  /\ (e = VList [] -> j = VList [] -> r = VList [] ->
      Assistant.build_context srv
        [("expenses", e); ("savings_jars", j); ("reminders", r)]
      = Return
          ("User Information: " +:+ Assistant.nl
           +:+ "Expenses: []" +:+ Assistant.nl
           +:+ "Savings Jars: []" +:+ Assistant.nl
           +:+ "Reminders: []" +:+ Assistant.nl
           +:+ "Please use this information to respond to the user's query."
           +:+ Assistant.nl))
  /\ (forall client,
         Assistant.OpenAI srv OPENAI_API_KEY = Return client ->
         (Assistant.generate_ai_response srv OPENAI_API_KEY user_prompt
            access_token t).2
         = t ++ [Assistant.Requested (Assistant.BASE_URL +:+ "/get_expenses")
                   (Assistant.bearer access_token);
                 Assistant.Requested
                   (Assistant.BASE_URL +:+ "/get_savings_jars")
                   (Assistant.bearer access_token);
                 Assistant.Requested (Assistant.BASE_URL +:+ "/get_reminders")
                   (Assistant.bearer access_token);
                 Assistant.Submitted "gpt-4o"
                   [("system", "You are a helpful personal finance assistant.");
                    ("user",
                     Assistant.context_block srv e j r +:+ "User Query: "
                     +:+ user_prompt)]]).
Proof.
  intros He Hj Hr. split; [|split; [|split]].
  - now apply get_user_data_success.
  - apply build_context_block.
  - intros -> -> ->. rewrite build_context_block. reflexivity.
  - intros client Hc.
    now rewrite (generate_ai_response_success srv OPENAI_API_KEY user_prompt
                   access_token t client e j r Hc He Hj Hr).
Qed.

(** C8 in the world whose backend answers three empty arrays. *)
Lemma context_block_shape_witness :
  Assistant.build_context Sample.srv
    [("expenses", VList []); ("savings_jars", VList []); ("reminders", VList [])]
  = Return
      ("User Information: " +:+ Assistant.nl
       +:+ "Expenses: []" +:+ Assistant.nl
       +:+ "Savings Jars: []" +:+ Assistant.nl
       +:+ "Reminders: []" +:+ Assistant.nl
       +:+ "Please use this information to respond to the user's query."
       +:+ Assistant.nl)
  /\ Assistant.generate_ai_response Sample.srv (Some "sk-test")
       "How much did I spend?" "t7" []
     = (Return (Some "You have no expenses yet."),
        [Assistant.Requested "http://localhost:8000/get_expenses"
           [("Authorization", "Bearer t7")];
         Assistant.Requested "http://localhost:8000/get_savings_jars"
           [("Authorization", "Bearer t7")];
         Assistant.Requested "http://localhost:8000/get_reminders"
           [("Authorization", "Bearer t7")];
         Assistant.Submitted "gpt-4o"
           [("system", "You are a helpful personal finance assistant.");
            ("user",
             "User Information: " +:+ Assistant.nl
             +:+ "Expenses: []" +:+ Assistant.nl
             +:+ "Savings Jars: []" +:+ Assistant.nl
             +:+ "Reminders: []" +:+ Assistant.nl
             +:+ "Please use this information to respond to the user's query."
             +:+ Assistant.nl
             +:+ "User Query: How much did I spend?")]]).
Proof.
  destruct (context_block_shape Sample.srv (Some "sk-test")
              "How much did I spend?" "t7" [] (VList []) (VList []) (VList []))
    as (_ & _ & Hempty & Hsent); try reflexivity.
  split; [now apply Hempty|].
  vm_compute. reflexivity.
Defined.

(** * Further properties of the handlers *)

Section GateAndHandlers.

Import Prisma.

Context (lib : Jose.Library) (cfg : Auth.Config).
Context (schema : Schema) (dt : Main.Datetime).

(** A creator under [try]: whatever [create] raises comes out as a 500
    that carries the text of the error, and the database is as before. *)
Lemma guarded_create_raised m data (ack : Row -> Dict) db e db' :
  St.try_except
    (do r <- create schema m data; St.ret (ack r))
    (fun e => St.raise (HTTPException 500 (str_of_exn e))) db
  = (Raise e, db') ->
  db' = db /\ exists x, create schema m data db = (Raise x, db)
                        /\ e = HTTPException 500 (str_of_exn x).
Proof.
  unfold St.try_except, St.bind, St.ret, St.raise.
  destruct (create schema m data db) as [[r|x] db1] eqn:E; [discriminate|].
  apply create_raised in E as Hdb. subst db1.
  intros [= <- <-]. eauto.
Qed.

End GateAndHandlers.

(** X1. The gate comes first: when [get_current_user] rejects the token
    (invalid, expired, unknown user) the route answers with that rejection
    and the handler has not run, whatever the handler is; the database is
    as before. *)
Theorem gate_blocks_handler {A : Type} (lib : Jose.Library) (cfg : Auth.Config)
    (h : Prisma.User -> St.ST Prisma.DB A) (token : string) (now : Z)
    (db : Prisma.DB) :
  (forall e,
      (Main.get_current_user lib cfg token now db).1 = Raise e ->
      Main.authenticated lib cfg h token now db = (Raise e, db))
  /\ (Auth.decode_token lib cfg token now = Return None ->
      Main.authenticated lib cfg h token now db
      = (Raise (HTTPException 401 "Invalid token"), db)).
Proof.
  assert (Hgate : forall e,
             (Main.get_current_user lib cfg token now db).1 = Raise e ->
             Main.authenticated lib cfg h token now db = (Raise e, db)).
  { intros e He. unfold Main.authenticated, St.bind.
    pose proof (get_current_user_state lib cfg token now db) as Hs.
    destruct (Main.get_current_user lib cfg token now db) as [[u|x] db1];
      simpl in *; congruence. }
  split; [exact Hgate|].
  intros Hd. apply Hgate.
  unfold Main.get_current_user, St.bind, St.lift. now rewrite Hd.
Qed.

(** X1 on the sample database: mia's token, read after it expired, in
    front of [add_expense]. *)
Lemma gate_blocks_handler_witness :
  Main.authenticated Sample.lib Sample.cfg
    (Main.add_expense Sample.schema Sample.lunch) "t7" 5000 Sample.db
  = (Raise (HTTPException 401 "Invalid token"), Sample.db).
Proof.
  apply (gate_blocks_handler Sample.lib Sample.cfg
           (Main.add_expense Sample.schema Sample.lunch) "t7" 5000 Sample.db).
  reflexivity.
Defined.

(** X2. A token that verifies but whose payload is the empty object is
    rejected like an invalid one: [if not payload] does not tell [{}] from
    [None]. *)
Theorem empty_payload_is_invalid (lib : Jose.Library) (cfg : Auth.Config)
    (token : string) (now : Z) (db : Prisma.DB) :
  Auth.decode_token lib cfg token now = Return (Some []) ->
  Main.get_current_user lib cfg token now db
  = (Raise (HTTPException 401 "Invalid token"), db).
Proof.
  intros Hd. unfold Main.get_current_user, St.bind, St.lift. now rewrite Hd.
Qed.

Lemma empty_payload_is_invalid_witness :
  Auth.decode_token Scenario.lib Sample.cfg "empty" 1000 = Return (Some [])
  /\ Main.get_current_user Scenario.lib Sample.cfg "empty" 1000 Sample.db
     = (Raise (HTTPException 401 "Invalid token"), Sample.db).
Proof.
  split; [reflexivity|].
  apply (empty_payload_is_invalid Scenario.lib Sample.cfg "empty" 1000 Sample.db).
  reflexivity.
Defined.

(** X3. A creator is all or nothing.  [add_expense] and [add_savings_jar]
    either acknowledge with the identifier of the one row they appended,
    owned by the current user, or raise an [HTTPException] (400 or 500 for
    an expense, 500 for a jar) and leave the database as it was; no error of
    the store escapes them.  [add_reminder] leaves the database as it was
    whenever it raises. *)
Theorem creators_all_or_nothing (schema : Prisma.Schema) (dt : Main.Datetime)
    (body : Dict) (u : Prisma.User) (db : Prisma.DB) :
  match Main.add_expense schema body u db with
  | (Return ack, db') =>
      exists r, Prisma.expense db' = Prisma.expense db ++ [r]
                /\ Prisma.userId r = Prisma.id u
                /\ ack = [("message", VStr "Expense added successfully");
                          ("expense_id", VInt (Prisma.row_id r))]
  | (Raise e, db') =>
      db' = db
      /\ exists code detail,
           e = HTTPException code detail /\ (code = 400 \/ code = 500)
  end
  /\ match Main.add_savings_jar schema body u db with
     | (Return ack, db') =>
         exists r, Prisma.savingsjar db' = Prisma.savingsjar db ++ [r]
                   /\ Prisma.userId r = Prisma.id u
                   /\ ack = [("message", VStr "Savings jar added successfully");
                             ("savings_jar_id", VInt (Prisma.row_id r))]
     | (Raise e, db') =>
         db' = db /\ exists detail, e = HTTPException 500 detail
     end
  /\ match Main.add_reminder schema dt body u db with
     | (Return ack, db') =>
         exists r, Prisma.reminder db' = Prisma.reminder db ++ [r]
                   /\ Prisma.userId r = Prisma.id u
                   /\ dict_get "reminder_id" ack = Some (VInt (Prisma.row_id r))
     | (Raise e, db') => db' = db
     end.
Proof.
  split; [|split].
  - destruct (Main.add_expense schema body u db) as [[ack|e] db'] eqn:E.
    + pose proof E as E'.
      apply add_expense_returned in E' as (r & Ht & Ho & _).
      unfold Main.add_expense in E.
      destruct (negb (truthy (VInt (Prisma.id u)))); [discriminate|].
      apply guarded_create_returned in E as (r' & Hc & ->).
      apply create_returned in Hc as (_ & _ & _ & Ht' & _).
      simpl in Ht'. rewrite Ht in Ht'. apply app_inv_head in Ht'.
      injection Ht' as <-. eauto.
    + unfold Main.add_expense in E.
      destruct (negb (truthy (VInt (Prisma.id u)))).
      * injection E as <- <-. split; [reflexivity|]. eauto.
      * apply guarded_create_raised in E as (-> & x & _ & ->).
        split; [reflexivity|]. eauto.
  - destruct (Main.add_savings_jar schema body u db) as [[ack|e] db'] eqn:E.
    + pose proof E as E'.
      apply add_savings_jar_returned in E' as (r & Ht & Ho & _).
      unfold Main.add_savings_jar in E.
      apply guarded_create_returned in E as (r' & Hc & ->).
      apply create_returned in Hc as (_ & _ & _ & Ht' & _).
      simpl in Ht'. rewrite Ht in Ht'. apply app_inv_head in Ht'.
      injection Ht' as <-. eauto.
    + unfold Main.add_savings_jar in E.
      apply guarded_create_raised in E as (-> & x & _ & ->).
      split; [reflexivity|]. eauto.
  - destruct (Main.add_reminder schema dt body u db) as [[ack|e] db'] eqn:E.
    + pose proof E as E'.
      apply add_reminder_returned in E' as (r & Ht & Ho & _).
      unfold Main.add_reminder in E. unfold St.bind at 1, St.lift in E.
      destruct (try_except_class _ _ _) as [due|x]; [|discriminate].
      apply guarded_create_returned in E as (r' & Hc & ->).
      apply create_returned in Hc as (_ & _ & _ & Ht' & _).
      simpl in Ht'. rewrite Ht in Ht'. apply app_inv_head in Ht'.
      injection Ht' as <-. eauto.
    + unfold Main.add_reminder in E. unfold St.bind at 1, St.lift in E.
      destruct (try_except_class _ _ _) as [due|x].
      * now apply guarded_create_raised in E as (-> & _).
      * now injection E as _ <-.
Qed.

Section StoreAccepts.

Import Prisma.

Context (schema : Schema).

(** What [create] does when the engine answers, the schema accepts the
    columns and the owner exists. *)
Lemma create_accepted m data uid db :
  engine_fault db = None ->
  schema_check schema m data = None ->
  get "userId" data = VInt uid ->
  (exists u, In u (user db) /\ id u = uid) ->
  create schema m data db
  = (Return {| row_id := fresh_id (table m db); userId := uid; columns := data |},
     set_table m (table m db
                  ++ [{| row_id := fresh_id (table m db); userId := uid;
                         columns := data |}]) db).
Proof.
  intros Hf Hs Hu (u & Hin & Hid).
  unfold create, St.bind, query. rewrite Hf, Hs, Hu.
  assert (existsb (fun x => id x =? uid) (user db) = true) as ->; [|reflexivity].
  apply existsb_exists. exists u. split; [exact Hin|now apply Z.eqb_eq].
Qed.

End StoreAccepts.

(** X4. What an acknowledged expense or savings jar holds: the owner is
    the current user, and each other column is [body.get] of its key, so a
    key the body lacks is stored as [None] and a key the handler does not
    read is dropped.  The store is asked nothing else, and the
    acknowledgement carries the identifier of the new row. *)
Theorem creators_store_what_was_sent (schema : Prisma.Schema) (body : Dict)
    (u : Prisma.User) (db : Prisma.DB) :
  Prisma.engine_fault db = None ->
  In u (Prisma.user db) ->
  let expense_data :=
    [("userId", VInt (Prisma.id u)); ("category", get "category" body);
     ("amount", get "amount" body); ("note", get "note" body);
     ("recurring", get "recurring" body)] in
  let jar_data :=
    [("userId", VInt (Prisma.id u)); ("name", get "name" body);
     ("goal", get "goal" body); ("description", get "description" body);
     ("progress", get "progress" body)] in
  (Prisma.id u <> 0 ->
   Prisma.schema_check schema Prisma.Expense expense_data = None ->
   let r := {| Prisma.row_id := Prisma.fresh_id (Prisma.expense db);
               Prisma.userId := Prisma.id u;
               Prisma.columns := expense_data |} in
   Main.add_expense schema body u db
   = (Return [("message", VStr "Expense added successfully");
              ("expense_id", VInt (Prisma.row_id r))],
      Prisma.set_table Prisma.Expense (Prisma.expense db ++ [r]) db))
  /\ (Prisma.schema_check schema Prisma.SavingsJar jar_data = None ->
      let r := {| Prisma.row_id := Prisma.fresh_id (Prisma.savingsjar db);
                  Prisma.userId := Prisma.id u;
                  Prisma.columns := jar_data |} in
      Main.add_savings_jar schema body u db
      = (Return [("message", VStr "Savings jar added successfully");
                 ("savings_jar_id", VInt (Prisma.row_id r))],
         Prisma.set_table Prisma.SavingsJar (Prisma.savingsjar db ++ [r]) db)).
Proof.
  intros Hf Hin expense_data jar_data. split.
  - intros Hid Hs r. unfold Main.add_expense. cbv zeta.
    assert (Ht : negb (truthy (VInt (Prisma.id u))) = false).
    { simpl. apply Z.eqb_neq in Hid. now rewrite Hid. }
    rewrite Ht. unfold St.try_except, St.bind.
    fold expense_data.
    rewrite (create_accepted schema Prisma.Expense expense_data (Prisma.id u) db
               Hf Hs eq_refl (ex_intro _ u (conj Hin eq_refl))).
    reflexivity.
  - intros Hs r. unfold Main.add_savings_jar. cbv zeta.
    unfold St.try_except, St.bind. fold jar_data.
    rewrite (create_accepted schema Prisma.SavingsJar jar_data (Prisma.id u) db
               Hf Hs eq_refl (ex_intro _ u (conj Hin eq_refl))).
    reflexivity.
Qed.

(** X4 on the sample database: mia's lunch, whose body names bob as
    owner, and a jar sent with only its name. *)
Lemma creators_store_what_was_sent_witness :
  (exists r db',
      Main.add_expense Sample.schema Sample.lunch Sample.mia Sample.db
      = (Return [("message", VStr "Expense added successfully");
                 ("expense_id", VInt 1)], db')
      /\ Prisma.expense db' = [r]
      /\ Prisma.columns r
         = [("userId", VInt 7); ("category", VStr "Food"); ("amount", VInt 12);
            ("note", VStr "lunch"); ("recurring", VBool false)])
  /\ (exists r db',
         Main.add_savings_jar Sample.schema [("name", VStr "Trip")] Sample.mia
           Sample.db
         = (Return [("message", VStr "Savings jar added successfully");
                    ("savings_jar_id", VInt 1)], db')
         /\ Prisma.savingsjar db' = [r]
         /\ Prisma.columns r
            = [("userId", VInt 7); ("name", VStr "Trip"); ("goal", VNone);
               ("description", VNone); ("progress", VNone)]).
Proof.
  destruct (creators_store_what_was_sent Sample.schema Sample.lunch Sample.mia
              Sample.db eq_refl (or_introl eq_refl)) as [He _].
  destruct (creators_store_what_was_sent Sample.schema [("name", VStr "Trip")]
              Sample.mia Sample.db eq_refl (or_introl eq_refl)) as [_ Hj].
  split.
  - eexists _, _. split; [apply He; [discriminate|reflexivity]|].
    split; reflexivity.
  - eexists _, _. split; [apply Hj; reflexivity|]. split; reflexivity.
Defined.

(** X5. A reminder whose due date is a string: the handler parses the
    date followed by "T00:00:00"; if that is no ISO timestamp the answer is
    400 "Invalid date format" and nothing is stored; if it is, and the
    store takes the row, the row holds the parsed timestamp under [dueDate]
    and the acknowledgement gives it back in ISO form. *)
Theorem add_reminder_parses_date (schema : Prisma.Schema) (dt : Main.Datetime)
    (body : Dict) (u : Prisma.User) (db : Prisma.DB) (s : string) :
  get "due_date" body = VStr s ->
  (Main.fromisoformat dt (s +:+ "T00:00:00") = None ->
   Main.add_reminder schema dt body u db
   = (Raise (HTTPException 400 "Invalid date format"), db))
  /\ (forall d,
         Main.fromisoformat dt (s +:+ "T00:00:00") = Some d ->
         Prisma.engine_fault db = None ->
         In u (Prisma.user db) ->
         let data := [("userId", VInt (Prisma.id u)); ("name", get "name" body);
                      ("amount", get "amount" body); ("dueDate", VDatetime d)] in
         Prisma.schema_check schema Prisma.Reminder data = None ->
         let r := {| Prisma.row_id := Prisma.fresh_id (Prisma.reminder db);
                     Prisma.userId := Prisma.id u;
                     Prisma.columns := data |} in
         Main.add_reminder schema dt body u db
         = (Return [("message", VStr "Reminder added successfully");
                    ("reminder_id", VInt (Prisma.row_id r));
                    ("due_date", VStr (Main.isoformat dt d))],
            Prisma.set_table Prisma.Reminder (Prisma.reminder db ++ [r]) db)).
Proof.
  intros Hs. split.
  - intros Hbad. now apply (add_reminder_malformed_date schema dt body u db s).
  - intros d Hd Hf Hin data Hok r.
    unfold Main.add_reminder. cbv zeta. rewrite Hs.
    unfold St.bind at 1, St.lift. unfold Main.add_str, Py.bind.
    rewrite Hd. unfold try_except_class.
    unfold St.try_except, St.bind. fold data.
    rewrite (create_accepted schema Prisma.Reminder data (Prisma.id u) db
               Hf Hok eq_refl (ex_intro _ u (conj Hin eq_refl))).
    reflexivity.
Qed.

(** X5 on the sample database: a date the calendar knows, and one it
    does not. *)
Lemma add_reminder_parses_date_witness :
  (Main.add_reminder Sample.schema Sample.dt
     (("due_date", VStr "31/01/2025") :: Sample.reminder_without_date)
     Sample.mia Sample.db
   = (Raise (HTTPException 400 "Invalid date format"), Sample.db))
  /\ exists db',
       Main.add_reminder Sample.schema Sample.dt
         (("due_date", VStr "2025-01-31") :: Sample.reminder_without_date)
         Sample.mia Sample.db
       = (Return [("message", VStr "Reminder added successfully");
                  ("reminder_id", VInt 1);
                  ("due_date", VStr "2025-01-31T00:00:00")], db').
Proof.
  split.
  - apply (add_reminder_parses_date Sample.schema Sample.dt
             (("due_date", VStr "31/01/2025") :: Sample.reminder_without_date)
             Sample.mia Sample.db "31/01/2025"); reflexivity.
  - eexists.
    apply (proj2 (add_reminder_parses_date Sample.schema Sample.dt
                    (("due_date", VStr "2025-01-31")
                       :: Sample.reminder_without_date)
                    Sample.mia Sample.db "2025-01-31" eq_refl) 1738281600);
      try reflexivity.
    now left.
Defined.

(** X6. The list routes only read.  Whatever they answer, the database
    is as before; and when the engine is unreachable each answers with a
    500 whose detail is the text of the engine's error. *)
Theorem list_routes_read_only (u : Prisma.User) (db : Prisma.DB) :
  (Main.get_expenses u db).2 = db
  /\ (Main.get_savings_jars u db).2 = db
  /\ (Main.get_reminders u db).2 = db
  /\ (forall msg,
         Prisma.engine_fault db = Some msg ->
         Main.get_expenses u db = (Raise (HTTPException 500 msg), db)
         /\ Main.get_savings_jars u db = (Raise (HTTPException 500 msg), db)
         /\ Main.get_reminders u db = (Raise (HTTPException 500 msg), db)).
Proof.
  unfold Main.get_expenses, Main.get_savings_jars, Main.get_reminders,
    St.try_except, Prisma.find_many, Prisma.query, St.raise.
  destruct (Prisma.engine_fault db) as [m|]; simpl.
  - repeat split; try reflexivity; now injection H as <-.
  - repeat split; try reflexivity; discriminate.
Qed.

Lemma list_routes_read_only_witness :
  Main.get_expenses Sample.mia Scenario.db_down
  = (Raise (HTTPException 500 "Can't reach database server"), Scenario.db_down).
Proof.
  apply (list_routes_read_only Sample.mia Scenario.db_down). reflexivity.
Defined.

(** X7. A login body that lacks the username or the password, or holds
    a falsy one (empty string, null, zero), is answered with 400 before the
    store is asked anything: the answer is the same with the engine down. *)
Theorem login_requires_fields (lib : Jose.Library) (cfg : Auth.Config)
    (bc : Auth.Bcrypt) (body : Dict) (now : Z)
    (db : Prisma.DB) :
  truthy (get "username" body) = false \/ truthy (get "password" body) = false ->
  Main.login lib cfg bc body now db
  = (Raise (HTTPException 400 "Username and password are required."), db).
Proof.
  intros H. unfold Main.login. cbv zeta.
  assert (negb (truthy (get "username" body))
          || negb (truthy (get "password" body)) = true) as ->; [|reflexivity].
  destruct H as [-> | ->]; simpl; [reflexivity|apply orb_true_r].
Qed.

Lemma login_requires_fields_witness :
  Main.login Sample.lib Sample.cfg Sample.bcrypt
    [("username", VStr "mia")] 1000 Scenario.db_down
  = (Raise (HTTPException 400 "Username and password are required."),
     Scenario.db_down)
  /\ Main.login Sample.lib Sample.cfg Sample.bcrypt
       [("username", VStr ""); ("password", VStr "pw123")] 1000 Sample.db
     = (Raise (HTTPException 400 "Username and password are required."),
        Sample.db).
Proof.
  split.
  - apply (login_requires_fields Sample.lib Sample.cfg Sample.bcrypt
             [("username", VStr "mia")] 1000 Scenario.db_down).
    right. reflexivity.
  - apply (login_requires_fields Sample.lib Sample.cfg Sample.bcrypt
             [("username", VStr ""); ("password", VStr "pw123")] 1000 Sample.db).
    left. reflexivity.
Defined.

(** X8. A password that is not a string (a number, a list) and is truthy
    passes the presence check; [verify_password] then calls [encode] on it
    and raises.  As the password is only verified when the user exists, the
    login ends in an unhandled [AttributeError] for a registered username
    and in 401 "Invalid credentials" for an unknown one. *)
Theorem login_non_string_password (lib : Jose.Library) (cfg : Auth.Config)
    (bc : Auth.Bcrypt) (body : Dict) (now : Z)
    (db : Prisma.DB) (name : string) :
  Prisma.engine_fault db = None ->
  get "username" body = VStr name -> name <> "" ->
  truthy (get "password" body) = true ->
  (forall s, get "password" body <> VStr s) ->
  ((forall u, In u (Prisma.user db) -> Prisma.username u <> name) ->
   Main.login lib cfg bc body now db
   = (Raise (HTTPException 401 "Invalid credentials"), db))
  /\ ((exists u, In u (Prisma.user db) /\ Prisma.username u = name) ->
      Main.login lib cfg bc body now db
      = (Raise (PyError AttributeError "object has no attribute 'encode'"), db)).
Proof.
  intros Hf Hn Hne Hp Hnostr.
  assert (Ht : truthy (VStr name) = true)
    by (apply String.eqb_neq in Hne; simpl; now rewrite Hne).
  split.
  - intros Hnone. unfold Main.login. cbv zeta. rewrite Hn, Hp, Ht. simpl.
    unfold St.bind, Prisma.query. rewrite Hf.
    destruct (find _ _) as [u|] eqn:E; [|reflexivity].
    apply find_some in E as [Hin Heq]. apply String.eqb_eq in Heq.
    now destruct (Hnone u Hin).
  - intros (u0 & Hin0 & Hname0).
    unfold Main.login. cbv zeta. rewrite Hn, Hp, Ht. simpl.
    unfold St.bind, Prisma.query. rewrite Hf.
    destruct (find _ _) as [u|] eqn:E.
    + unfold St.lift, Auth.verify_password.
      destruct (get "password" body) as [| | | |s| | |] eqn:Epw;
        try reflexivity.
      now destruct (Hnostr s).
    + apply (find_none _ _ E) in Hin0. apply String.eqb_neq in Hin0.
      contradiction.
Qed.

Lemma login_non_string_password_witness :
  Main.login Sample.lib Sample.cfg Sample.bcrypt
    [("username", VStr "eve"); ("password", VInt 123)] 1000 Sample.db
  = (Raise (HTTPException 401 "Invalid credentials"), Sample.db)
  /\ Main.login Sample.lib Sample.cfg Sample.bcrypt
       [("username", VStr "mia"); ("password", VInt 123)] 1000 Sample.db
     = (Raise (PyError AttributeError "object has no attribute 'encode'"),
        Sample.db).
Proof.
  split.
  - apply (login_non_string_password Sample.lib Sample.cfg Sample.bcrypt
             [("username", VStr "eve"); ("password", VInt 123)] 1000 Sample.db
             "eve"); try reflexivity; try discriminate.
    intros u [<-|[<-|[]]]; discriminate.
  - apply (login_non_string_password Sample.lib Sample.cfg Sample.bcrypt
             [("username", VStr "mia"); ("password", VInt 123)] 1000 Sample.db
             "mia"); try reflexivity; try discriminate.
    exists Sample.mia. split; [now left|reflexivity].
Defined.

(** * Login, the token and the gate together *)

Section LoginAndGate.

Import Prisma.

Context (lib : Jose.Library) (cfg : Auth.Config).




End LoginAndGate.



(** * Registration *)

Section SignupFacts.

Import Prisma.

Context (srv : Signup.Services) (bc : Auth.Bcrypt).

Lemma find_none_iff {A : Type} (f : A -> bool) (l : list A) :
  find f l = None <-> forall x, In x l -> f x = false.
Proof.
  split; [apply find_none|].
  induction l as [|y l IH]; simpl; [reflexivity|].
  intros H. rewrite (H y (or_introl eq_refl)). apply IH. auto.
Qed.

Lemma existsb_false_iff {A : Type} (f : A -> bool) (l : list A) :
  existsb f l = false <-> forall x, In x l -> f x = false.
Proof.
  induction l as [|y l IH]; simpl; [tauto|].
  rewrite orb_false_iff, IH. split.
  - intros [Hy Hl] x [<-|Hin]; auto.
  - intros H. split; auto.
Qed.



(** What [hash_password] went through when it returns. *)
Lemma hash_password_returned password salt h :
  Auth.hash_password bc password salt = Return h ->
  exists p password_bytes hashed,
    password = VStr p
    /\ Auth.encode bc p = Return password_bytes
    /\ Auth.hashpw bc password_bytes salt = Return hashed
    /\ Auth.decode bc hashed = Return h.
Proof.
  unfold Auth.hash_password, Py.bind.
  destruct password as [| | | |p| | |]; try discriminate.
  destruct (Auth.encode bc p) as [pb|x] eqn:Ee; [|discriminate].
  destruct (Auth.hashpw bc pb salt) as [hb|x] eqn:Eh; [|discriminate].
  intros Hd. exists p, pb, hb. auto.
Qed.

(** Whatever [hash_password] raises leaves [register] at once: nothing
    has been looked up, nothing is stored. *)
Lemma register_hash_raised body salt db x :
  Auth.hash_password bc (get "password" body) salt = Raise x ->
  Signup.register srv bc body salt db = (Raise x, db).
Proof.
  intros Hh. unfold Signup.register. cbv zeta.
  apply bind_raise. unfold St.lift. now rewrite Hh.
Qed.

(** What [register] does once the password is hashed and the store
    answers: the two lookups decide. *)
Lemma register_run body salt db name mail h :
  engine_fault db = None ->
  get "username" body = VStr name ->
  get "email" body = VStr mail ->
  Auth.hash_password bc (get "password" body) salt = Return h ->
  Signup.register srv bc body salt db
  = match find (fun u => String.eqb (username u) name) (user db) with
    | Some _ => (Raise (HTTPException 400 "Username already exists"), db)
    | None =>
        match find (fun u => String.eqb (email u) mail) (user db) with
        | Some _ => (Raise (HTTPException 400 "Email already exists"), db)
        | None =>
            St.bind
              (Signup.user_create srv
                 [("username", VStr name); ("email", VStr mail);
                  ("phoneNumber", get "phone_number" body);
                  ("password", VStr h)])
              (fun user => St.ret [("message", VStr "User registered");
                                   ("user_id", VInt (id user))]) db
        end
    end.
Proof.
  intros Hf Hn Hm Hp. unfold Signup.register. cbv zeta. rewrite Hn, Hm.
  rewrite (bind_return _ _ db h db); [|unfold St.lift; now rewrite Hp].
  unfold St.bind at 1. unfold user_find_unique_username, query. rewrite Hf.
  destruct (find (fun u => String.eqb (username u) name) (user db));
    [reflexivity|].
  unfold St.bind at 1. unfold Signup.user_find_unique_email, query. rewrite Hf.
  destruct (find (fun u => String.eqb (email u) mail) (user db));
    reflexivity.
Qed.

(** What [user_create] does when the engine answers, the store accepts
    the columns and neither the username nor the email is taken. *)
Lemma user_create_accepted data db n e p :
  engine_fault db = None ->
  Signup.user_check srv data = None ->
  get "username" data = VStr n ->
  get "email" data = VStr e ->
  get "password" data = VStr p ->
  (forall u, In u (user db) -> username u <> n) ->
  (forall u, In u (user db) -> email u <> e) ->
  Signup.user_create srv data db
  = (Return {| id := Signup.fresh_user_id (user db); username := n; email := e;
               phoneNumber := get "phoneNumber" data; password := p |},
     Signup.set_user
       (user db ++ [{| id := Signup.fresh_user_id (user db); username := n;
                       email := e; phoneNumber := get "phoneNumber" data;
                       password := p |}]) db).
Proof.
  intros Hf Hok Hn He Hp Hname Hmail.
  unfold Signup.user_create, St.bind, query. rewrite Hf, Hok, Hn, He, Hp.
  assert (existsb (fun u => String.eqb (username u) n) (user db) = false) as ->.
  { apply existsb_false_iff. intros u Hu. apply String.eqb_neq. auto. }
  assert (existsb (fun u => String.eqb (email u) e) (user db) = false) as ->.
  { apply existsb_false_iff. intros u Hu. apply String.eqb_neq. auto. }
  reflexivity.
Qed.

(** A registration under a free username and a free email that the
    store accepts. *)
Lemma register_accepted body salt db name mail h :
  engine_fault db = None ->
  get "username" body = VStr name ->
  get "email" body = VStr mail ->
  Auth.hash_password bc (get "password" body) salt = Return h ->
  (forall u, In u (user db) -> username u <> name) ->
  (forall u, In u (user db) -> email u <> mail) ->
  Signup.user_check srv
    [("username", VStr name); ("email", VStr mail);
     ("phoneNumber", get "phone_number" body);
     ("password", VStr h)] = None ->
  Signup.register srv bc body salt db
  = (Return [("message", VStr "User registered");
             ("user_id", VInt (Signup.fresh_user_id (user db)))],
     Signup.set_user
       (user db ++ [{| id := Signup.fresh_user_id (user db);
                       username := name; email := mail;
                       phoneNumber := get "phone_number" body;
                       password := h |}]) db).
Proof.
  intros Hf Hn Hm Hp Hname Hmail Hok.
  assert (Hfn : forall u, In u (user db) ->
                          String.eqb (username u) name = false)
    by (intros u Hu; apply String.eqb_neq; auto).
  assert (Hfm : forall u, In u (user db) ->
                          String.eqb (email u) mail = false)
    by (intros u Hu; apply String.eqb_neq; auto).
  rewrite (register_run body salt db name mail h Hf Hn Hm Hp).
  rewrite (proj2 (find_none_iff _ _) Hfn), (proj2 (find_none_iff _ _) Hfm).
  unfold St.bind.
  rewrite (user_create_accepted _ db name mail h Hf Hok eq_refl eq_refl eq_refl
             Hname Hmail).
  reflexivity.
Qed.

End SignupFacts.

(** X10. Registration reports a conflict by name, once the password is
    hashed.  [register] hashes the password first, so the lookups are
    reached only with a password that [hash_password] returns a hash for:
    a string that the codec encodes and bcrypt accepts.  Then a username
    that a user already has is answered with 400 "Username already exists",
    whether or not the email is taken too; a free username with a taken
    email is answered with 400 "Email already exists".  Nothing is
    stored. *)
Theorem register_reports_conflicts (srv : Signup.Services) (bc : Auth.Bcrypt)
    (body : Dict) (salt : bytes) (db : Prisma.DB) (name mail h : string) :
  Prisma.engine_fault db = None ->
  get "username" body = VStr name ->
  get "email" body = VStr mail ->
  Auth.hash_password bc (get "password" body) salt = Return h ->
  ((exists u, In u (Prisma.user db) /\ Prisma.username u = name) ->
   Signup.register srv bc body salt db
   = (Raise (HTTPException 400 "Username already exists"), db))
  /\ ((forall u, In u (Prisma.user db) -> Prisma.username u <> name) ->
      (exists u, In u (Prisma.user db) /\ Prisma.email u = mail) ->
      Signup.register srv bc body salt db
      = (Raise (HTTPException 400 "Email already exists"), db)).
Proof.
  intros Hf Hn Hm Hp.
  rewrite (register_run srv bc body salt db name mail h Hf Hn Hm Hp).
  split.
  - intros (u & Hin & Hu).
    destruct (find _ (Prisma.user db)) as [x|] eqn:E; [reflexivity|].
    apply (find_none _ _ E) in Hin. apply String.eqb_neq in Hin.
    contradiction.
  - intros Hfree (u & Hin & Hu).
    destruct (find (fun u => String.eqb (Prisma.username u) name) _)
      as [x|] eqn:E.
    { apply find_some in E as [Hx Hname]. apply String.eqb_eq in Hname.
      now destruct (Hfree x Hx). }
    destruct (find (fun u => String.eqb (Prisma.email u) mail) _)
      as [x|] eqn:E'; [reflexivity|].
    apply (find_none _ _ E') in Hin. apply String.eqb_neq in Hin.
    contradiction.
Qed.

(** X10 on the sample database: a second mia with mia's email, and a new
    name with mia's email. *)
Lemma register_reports_conflicts_witness :
  Signup.register Scenario.signup Sample.bcrypt Scenario.second_mia
    Sample.salt Sample.db
  = (Raise (HTTPException 400 "Username already exists"), Sample.db)
  /\ Signup.register Scenario.signup Sample.bcrypt
       [("username", VStr "amy"); ("email", VStr "m@x.com");
        ("password", VStr "pw")] Sample.salt Sample.db
     = (Raise (HTTPException 400 "Email already exists"), Sample.db).
Proof.
  split.
  - apply (register_reports_conflicts Scenario.signup Sample.bcrypt
             Scenario.second_mia Sample.salt Sample.db "mia" "m@x.com"
             "hash:other"); try reflexivity.
    exists Sample.mia. split; [now left|reflexivity].
  - apply (register_reports_conflicts Scenario.signup Sample.bcrypt
             [("username", VStr "amy"); ("email", VStr "m@x.com");
              ("password", VStr "pw")] Sample.salt Sample.db "amy" "m@x.com"
             "hash:pw");
      try reflexivity.
    + intros u [<-|[<-|[]]]; discriminate.
    + exists Sample.mia. split; [now left|reflexivity].
Defined.

(** X11. A registration whose password [hash_password] returns the hash
    [h] for, under a free username and a free email, which the store
    accepts, appends one user: the next identifier, the username and email
    as sent, [phone_number] of the body as the phone column, and [h] as
    password.  The answer carries the new identifier.  [h] is the text of
    what bcrypt made of the bytes of the password sent and the salt; a
    password for which the codec or bcrypt raises is not covered: its
    registration ends in that error. *)
Theorem register_creates_user (srv : Signup.Services) (bc : Auth.Bcrypt)
    (body : Dict) (salt : bytes) (db : Prisma.DB) (name mail h : string) :
  Prisma.engine_fault db = None ->
  get "username" body = VStr name ->
  get "email" body = VStr mail ->
  Auth.hash_password bc (get "password" body) salt = Return h ->
  (forall u, In u (Prisma.user db) -> Prisma.username u <> name) ->
  (forall u, In u (Prisma.user db) -> Prisma.email u <> mail) ->
  Signup.user_check srv
    [("username", VStr name); ("email", VStr mail);
     ("phoneNumber", get "phone_number" body);
     ("password", VStr h)] = None ->
  let new := {| Prisma.id := Signup.fresh_user_id (Prisma.user db);
                Prisma.username := name; Prisma.email := mail;
                Prisma.phoneNumber := get "phone_number" body;
                Prisma.password := h |} in
  Signup.register srv bc body salt db
  = (Return [("message", VStr "User registered");
             ("user_id", VInt (Prisma.id new))],
     Signup.set_user (Prisma.user db ++ [new]) db)
  /\ exists p password_bytes hashed,
       get "password" body = VStr p
       /\ Auth.encode bc p = Return password_bytes
       /\ Auth.hashpw bc password_bytes salt = Return hashed
       /\ Auth.decode bc hashed = Return h.
Proof.
  intros Hf Hn Hm Hp Hname Hmail Hok new. split.
  - now apply register_accepted.
  - now apply hash_password_returned.
Qed.

(** X11 on the sample database: zoe registers and gets identifier 9. *)
Lemma register_creates_user_witness :
  exists db',
    Signup.register Scenario.signup Sample.bcrypt Scenario.zoe Sample.salt
      Sample.db
    = (Return [("message", VStr "User registered"); ("user_id", VInt 9)], db')
    /\ Prisma.user db'
       = [Sample.mia; Sample.bob;
          {| Prisma.id := 9; Prisma.username := "zoe"; Prisma.email := "z@x.com";
             Prisma.phoneNumber := VStr "555-0199";
             Prisma.password := "hash:pw456" |}].
Proof.
  eexists. split.
  - apply (register_creates_user Scenario.signup Sample.bcrypt Scenario.zoe
             Sample.salt Sample.db "zoe" "z@x.com" "hash:pw456");
      try reflexivity; intros u [<-|[<-|[]]]; discriminate.
  - reflexivity.
Defined.

(** A password of 73 bytes, under a bcrypt that refuses it: the
    registration ends in the library's [ValueError], whether the username
    is free or taken, and nothing is stored. *)
Example register_refused_password :
  Signup.register Scenario.signup Sample.bcrypt
    [("username", VStr "zoe"); ("email", VStr "z@x.com");
     ("password", VStr Sample.long_password)] Sample.salt Sample.db
  = (Raise Sample.refusal, Sample.db)
  /\ Signup.register Scenario.signup Sample.bcrypt
       [("username", VStr "mia"); ("email", VStr "m@x.com");
        ("password", VStr Sample.long_password)] Sample.salt Sample.db
     = (Raise Sample.refusal, Sample.db).
Proof.
  split; apply register_hash_raised; reflexivity.
Qed.

(** X12. [register] hashes the password before it looks at anything
    else: a body without a password, or with one that is not a string,
    ends in an unhandled [AttributeError] whatever the username and the
    email are, taken or not, and whether or not the store is reachable. *)
Theorem register_without_password (srv : Signup.Services) (bc : Auth.Bcrypt)
    (body : Dict) (salt : bytes) (db : Prisma.DB) :
  (forall s, get "password" body <> VStr s) ->
  Signup.register srv bc body salt db
  = (Raise (PyError AttributeError "object has no attribute 'encode'"), db).
Proof.
  intros Hnostr. unfold Signup.register. cbv zeta.
  unfold Auth.hash_password.
  destruct (get "password" body) as [| | | |s| | |] eqn:E; try reflexivity.
  now destruct (Hnostr s).
Qed.

Lemma register_without_password_witness :
  Signup.register Scenario.signup Sample.bcrypt
    [("username", VStr "mia"); ("email", VStr "m@x.com")] Sample.salt
    Scenario.db_down
  = (Raise (PyError AttributeError "object has no attribute 'encode'"),
     Scenario.db_down).
Proof.
  apply (register_without_password Scenario.signup Sample.bcrypt
           [("username", VStr "mia"); ("email", VStr "m@x.com")] Sample.salt
           Scenario.db_down).
  intros s H. vm_compute in H. discriminate.
Defined.

Section LoginAccepts.

Import Prisma.

Context (lib : Jose.Library) (cfg : Auth.Config).
Context (bc : Auth.Bcrypt).



End LoginAccepts.



(** * Further properties of the token service *)

(** X14. What an issued token carries: the configured algorithm, the
    signature of its payload under the configured secret, and as payload
    the claim with [exp] set to the issue time plus the configured minutes.
    An [exp] that the claim brought along is overwritten; every other
    entry is kept. *)
Theorem issued_token_contents (lib : Jose.Library) (cfg : Auth.Config)
    (h : gmap positive Dict) (data : positive) (claim : Dict) (now : Z) :
  h !! data = Some claim ->
  json_serialisable (VDict claim) = true ->
  Auth.config_usable lib cfg ->
  exists payload,
    (Auth.create_access_token lib cfg data now h).1
    = Return (Jose.jws_serialize lib
                {| Jose.jws_alg := Auth.JWT_ALGORITHM cfg;
                   Jose.jws_payload := VDict payload;
                   Jose.jws_signature :=
                     Jose.mac lib (Auth.JWT_ALGORITHM cfg) (Auth.JWT_SECRET cfg)
                       (VDict payload) |})
    /\ dict_get "exp" payload
       = Some (VInt (now + 60 * Auth.JWT_EXPIRE_MINUTES cfg))
    /\ (forall k, k <> "exp" -> dict_get k payload = dict_get k claim)
    /\ json_serialisable (VDict payload) = true.
Proof.
  intros Hdata Hser Hcfg. exists (Auth.issued_payload cfg claim now).
  split; [|split; [|split]].
  - now apply create_access_token_result.
  - apply dict_get_set_eq.
  - intros k Hk. now apply dict_get_set_ne.
  - now apply dict_set_serialisable.
Qed.

(** X14 for a claim that brings its own far expiry. *)
Lemma issued_token_contents_witness :
  exists payload,
    (Auth.create_access_token Sample.lib Sample.cfg 1%positive 1000
       {[ 1%positive := [("user_id", VInt 7); ("exp", VInt 99999999)] ]}).1
    = Return (Jose.jws_serialize Sample.lib
                {| Jose.jws_alg := "HS256";
                   Jose.jws_payload := VDict payload;
                   Jose.jws_signature :=
                     Jose.mac Sample.lib "HS256" "s3cret" (VDict payload) |})
    /\ payload = [("user_id", VInt 7); ("exp", VInt 2800)].
Proof.
  destruct (issued_token_contents Sample.lib Sample.cfg
              {[ 1%positive := [("user_id", VInt 7); ("exp", VInt 99999999)] ]}
              1%positive [("user_id", VInt 7); ("exp", VInt 99999999)] 1000)
    as (payload & Htok & _); [reflexivity|reflexivity|split; reflexivity|].
  exists [("user_id", VInt 7); ("exp", VInt 2800)].
  split; reflexivity.
Defined.

(** X15. Validation pins the algorithm: a token whose header names an
    algorithm other than the configured one is invalid, also when its
    signature verifies under the algorithm it names. *)
Theorem decode_token_pins_algorithm (lib : Jose.Library) (cfg : Auth.Config)
    (token : string) (now : Z) (j : Jose.JWS) :
  Jose.jws_parse lib token = Some j ->
  Jose.jws_alg j <> Auth.JWT_ALGORITHM cfg ->
  Auth.decode_token lib cfg token now = Return None.
Proof.
  intros Hp Halg.
  apply (decode_token_of_raised lib cfg token now
           (PyError JWTError "The specified alg value is not allowed")).
  unfold Jose.jwt_decode. rewrite Hp. simpl.
  apply String.eqb_neq in Halg. now rewrite Halg.
Qed.

Lemma decode_token_pins_algorithm_witness :
  Jose.signature_verifies Scenario.lib Scenario.other_alg_token "s3cret" = true
  /\ Auth.decode_token Scenario.lib Sample.cfg "hs512" 1000 = Return None.
Proof.
  split; [reflexivity|].
  apply (decode_token_pins_algorithm Scenario.lib Sample.cfg "hs512" 1000
           Scenario.other_alg_token); [reflexivity|discriminate].
Defined.

(** * Further properties of the assistant *)

(** X16. The three fetches go out in order, each to its own route under
    the base address and each with the bearer header of the caller's token,
    and the first failure ends them: no request follows it.  The failure is
    printed, with the text of its exception, and is not returned. *)
Theorem get_user_data_stops_at_first_failure (srv : Assistant.Services)
    (access_token : string) (t : list Assistant.Event) :
  let headers := [("Authorization", "Bearer " +:+ access_token)] in
  let request path :=
    Assistant.Requested ("http://localhost:8000" +:+ path) headers in
  let line x :=
    Assistant.Printed
      (if is_class RequestException x
       then "Error fetching user data: " +:+ str_of_exn x
       else "An unexpected error occurred: " +:+ str_of_exn x) in
  (forall x,
      Assistant.fetched srv "/get_expenses" headers = Raise x ->
      Assistant.get_user_data srv access_token t
      = (Return None, t ++ [request "/get_expenses"; line x]))
  /\ (forall e x,
         Assistant.fetched srv "/get_expenses" headers = Return e ->
         Assistant.fetched srv "/get_savings_jars" headers = Raise x ->
         Assistant.get_user_data srv access_token t
         = (Return None,
            t ++ [request "/get_expenses"; request "/get_savings_jars"; line x]))
  /\ (forall e j x,
         Assistant.fetched srv "/get_expenses" headers = Return e ->
         Assistant.fetched srv "/get_savings_jars" headers = Return j ->
         Assistant.fetched srv "/get_reminders" headers = Raise x ->
         Assistant.get_user_data srv access_token t
         = (Return None,
            t ++ [request "/get_expenses"; request "/get_savings_jars";
                  request "/get_reminders"; line x])).
Proof.
  intros headers request line.
  split; [|split].
  - intros x Hx. unfold Assistant.get_user_data, St.try_except, St.bind.
    cbv zeta. fold headers. rewrite fetch_run, Hx. cbv iota beta.
    destruct (is_class RequestException x) eqn:Ec;
      unfold Assistant.print, St.ret; cbv beta iota;
      rewrite <- !app_assoc; subst line; cbv beta; now rewrite Ec.
  - intros e x He Hx. unfold Assistant.get_user_data, St.try_except, St.bind.
    cbv zeta. fold headers.
    rewrite fetch_run, He. cbv iota beta. rewrite fetch_run, Hx. cbv iota beta.
    destruct (is_class RequestException x) eqn:Ec;
      unfold Assistant.print, St.ret; cbv beta iota;
      rewrite <- !app_assoc; subst line; cbv beta; now rewrite Ec.
  - intros e j x He Hj Hx.
    unfold Assistant.get_user_data, St.try_except, St.bind.
    cbv zeta. fold headers.
    rewrite fetch_run, He. cbv iota beta. rewrite fetch_run, Hj. cbv iota beta.
    rewrite fetch_run, Hx. cbv iota beta.
    destruct (is_class RequestException x) eqn:Ec;
      unfold Assistant.print, St.ret; cbv beta iota;
      rewrite <- !app_assoc; subst line; cbv beta; now rewrite Ec.
Qed.

(** X16 with a backend that refuses the first connection, and with one
    whose reminders route answers 500. *)
Lemma get_user_data_stops_at_first_failure_witness :
  Assistant.get_user_data Scenario.srv_unreachable "t7" []
  = (Return None,
     [Assistant.Requested "http://localhost:8000/get_expenses"
        [("Authorization", "Bearer t7")];
      Assistant.Printed "Error fetching user data: Connection refused"])
  /\ Assistant.get_user_data Sample.srv_reminders_down "t7" []
     = (Return None,
        [Assistant.Requested "http://localhost:8000/get_expenses"
           [("Authorization", "Bearer t7")];
         Assistant.Requested "http://localhost:8000/get_savings_jars"
           [("Authorization", "Bearer t7")];
         Assistant.Requested "http://localhost:8000/get_reminders"
           [("Authorization", "Bearer t7")];
         Assistant.Printed "Error fetching user data: 500 Error"]).
Proof.
  destruct (get_user_data_stops_at_first_failure Scenario.srv_unreachable
              "t7" []) as (H1 & _ & _).
  destruct (get_user_data_stops_at_first_failure Sample.srv_reminders_down
              "t7" []) as (_ & _ & H3).
  split.
  - apply (H1 (PyError RequestException "Connection refused")). reflexivity.
  - apply (H3 (VList []) (VList [])
              (PyError RequestException "500 Error")); reflexivity.
Defined.


(** X18. With a client and the data fetched, the answer is the content
    of the first choice of the completion, as it is (a string, or [None]
    when the choice has no content), whatever choices follow; a completion
    without choices is answered with "An error occurred: list index out of
    range", the [IndexError] being caught like a fault of the call. *)
Theorem answer_is_first_choice (srv : Assistant.Services)
    (OPENAI_API_KEY : option string) (user_prompt access_token : string)
    (t : list Assistant.Event) (client : Assistant.Client) (e j r : Value) :
  Assistant.OpenAI srv OPENAI_API_KEY = Return client ->
  Assistant.fetched srv "/get_expenses" (Assistant.bearer access_token)
  = Return e ->
  Assistant.fetched srv "/get_savings_jars" (Assistant.bearer access_token)
  = Return j ->
  Assistant.fetched srv "/get_reminders" (Assistant.bearer access_token)
  = Return r ->
  let messages :=
    [("system", "You are a helpful personal finance assistant.");
     ("user", Assistant.context_block srv e j r +:+ "User Query: "
              +:+ user_prompt)] in
  (forall c rest,
      Assistant.chat_completions_create srv (Assistant.api_key client)
        "gpt-4o" messages
      = Return (c :: rest) ->
      (Assistant.generate_ai_response srv OPENAI_API_KEY user_prompt
         access_token t).1 = Return c)
  /\ (Assistant.chat_completions_create srv (Assistant.api_key client)
        "gpt-4o" messages
      = Return [] ->
      (Assistant.generate_ai_response srv OPENAI_API_KEY user_prompt
         access_token t).1
      = Return (Some "An error occurred: list index out of range")).
Proof.
  intros Hc He Hj Hr messages.
  rewrite (generate_ai_response_success srv OPENAI_API_KEY user_prompt
             access_token t client e j r Hc He Hj Hr).
  fold messages. simpl. split.
  - intros c rest ->. reflexivity.
  - intros ->. reflexivity.
Qed.

Lemma answer_is_first_choice_witness :
  (Assistant.generate_ai_response Sample.srv (Some "sk-test")
     "How much did I spend?" "t7" []).1
  = Return (Some "You have no expenses yet.")
  /\ (Assistant.generate_ai_response Scenario.srv_no_choice (Some "sk-test")
        "How much did I spend?" "t7" []).1
     = Return (Some "An error occurred: list index out of range")
  /\ (Assistant.generate_ai_response Scenario.srv_no_content (Some "sk-test")
        "How much did I spend?" "t7" []).1
     = Return None.
Proof.
  split; [|split].
  - apply (proj1 (answer_is_first_choice Sample.srv (Some "sk-test")
                    "How much did I spend?" "t7" []
                    {| Assistant.api_key := "sk-test" |}
                    (VList []) (VList []) (VList [])
                    eq_refl eq_refl eq_refl eq_refl)
             (Some "You have no expenses yet.") []).
    reflexivity.
  - apply (proj2 (answer_is_first_choice Scenario.srv_no_choice
                    (Some "sk-test") "How much did I spend?" "t7" []
                    {| Assistant.api_key := "sk-test" |}
                    (VList []) (VList []) (VList [])
                    eq_refl eq_refl eq_refl eq_refl)).
    reflexivity.
  - apply (proj1 (answer_is_first_choice Scenario.srv_no_content
                    (Some "sk-test") "How much did I spend?" "t7" []
                    {| Assistant.api_key := "sk-test" |}
                    (VList []) (VList []) (VList [])
                    eq_refl eq_refl eq_refl eq_refl)
             None [Some "a second choice"]).
    reflexivity.
Defined.

(** X19. When a fetch counts as done: exactly when the request returned
    a response, the status of the response is not in the range 400 to 599
    that [raise_for_status] refuses, and its body reads as JSON; the value
    fetched is then that JSON. *)
Theorem fetch_succeeds_iff (srv : Assistant.Services) (path : string)
    (headers : list (string * string)) (v : Value) :
  Assistant.fetched srv path headers = Return v
  <-> exists response,
        Assistant.requests_get srv (Assistant.BASE_URL +:+ path) headers
        = Return response
        /\ (Assistant.status_code response < 400
            \/ 600 <= Assistant.status_code response)
        /\ Assistant.json response = Some v.
Proof.
  unfold Assistant.fetched, Assistant.raise_for_status, Assistant.response_json,
    Py.bind.
  destruct (Assistant.requests_get srv (Assistant.BASE_URL +:+ path) headers)
    as [resp|x].
  - destruct ((400 <=? Assistant.status_code resp)
              && (Assistant.status_code resp <? 600)) eqn:E.
    + split; [discriminate|].
      intros (resp' & [= <-] & Hrange & _).
      apply andb_true_iff in E as [Elo Ehi].
      apply Z.leb_le in Elo. apply Z.ltb_lt in Ehi. lia.
    + assert (Hrange : Assistant.status_code resp < 400
                       \/ 600 <= Assistant.status_code resp).
      { apply andb_false_iff in E as [E|E];
          [apply Z.leb_gt in E|apply Z.ltb_ge in E]; lia. }
      split.
      * intros H. destruct (Assistant.json resp) as [w|] eqn:Ej;
          [|discriminate].
        injection H as <-. exists resp. auto.
      * intros (resp' & [= <-] & _ & ->). reflexivity.
  - split; [discriminate|]. intros (resp & [=] & _).
Qed.

(** X20. The guard of [add_expense] on the user identifier: the answer
    400 "User ID not found in token." is given exactly to a user whose
    identifier is falsy, that is 0, before the store is asked anything;
    [add_savings_jar] has no such guard and never gives a 400. *)
Theorem add_expense_guards_user_id (schema : Prisma.Schema) (body : Dict)
    (u : Prisma.User) (db : Prisma.DB) :
  ((Main.add_expense schema body u db).1
   = Raise (HTTPException 400 "User ID not found in token.")
   <-> Prisma.id u = 0)
  /\ forall detail,
       (Main.add_savings_jar schema body u db).1
       <> Raise (HTTPException 400 detail).
Proof.
  split.
  - assert (Hg : negb (truthy (VInt (Prisma.id u))) = (Prisma.id u =? 0))
      by (simpl; now destruct (Prisma.id u =? 0)).
    unfold Main.add_expense. cbv zeta. rewrite Hg.
    destruct (Prisma.id u =? 0) eqn:E.
    + apply Z.eqb_eq in E. split; [intros _; exact E|reflexivity].
    + apply Z.eqb_neq in E. split; [|contradiction].
      intros H. exfalso.
      destruct (St.try_except _ _ db) as [[ack|e] db'] eqn:Hrun;
        [discriminate|].
      apply guarded_create_raised in Hrun as (_ & x & _ & ->).
      simpl in H. discriminate.
  - intros detail H.
    destruct (Main.add_savings_jar schema body u db) as [[ack|e] db'] eqn:Hrun;
      [discriminate|].
    unfold Main.add_savings_jar in Hrun.
    apply guarded_create_raised in Hrun as (_ & x & _ & ->).
    simpl in H. discriminate.
Qed.
